(** * COMChip battery-status frames: checksum and frame decoder

    A shallow embedding of the C sources

      - [com3-gm.c]: [calculate_checksum], [BatteryStatusData],
        [process_comchip_status_packet] and the sample packets of [main];
      - [com-5cg.c]: [calculate_checksum] (the same text as in [com3-gm.c]),
        [decode_battery_status] and [main];
      - [com3-cg.c]: [ODM_com_checksum_calc] and [main].

    C objects of type [uint8_t], [uint16_t] and [unsigned int] are integers
    of [Z] with the conversions written out ([to_uint8], [to_uint16],
    [to_uint32]); the received packet is a [list byte]; reads of the packet,
    calls of [printf] and writes through [out_data] are recorded in a trace,
    and a read outside the packet has no defined result ([None]).  The
    arguments of a function are values of the types of its parameters:
    [cid] and [len] are below 256, [packet_len] is below 65536. *)

From Stdlib Require Import ZArith List Bool Lia.
From Stdlib Require Import Strings.Byte.
From Stdlib Require Import Sorting.Permutation.
Import ListNotations.

Local Open Scope Z_scope.

(** ** C integer conversions *)

Definition to_uint8 (z : Z) : Z := z mod 256.
Definition to_uint16 (z : Z) : Z := z mod 65536.
Definition to_uint32 (z : Z) : Z := z mod 4294967296.

(** The value of a [uint8_t] object of the packet. *)
Definition byte_val (b : byte) : Z := Z.of_N (Byte.to_N b).

(** ** Constants of [com3-gm.c] *)

Definition COMCHIP_SYNC_BYTE : Z := 0x55.
Definition COMCHIP_CID_GET_STATUS_RESP : Z := 0x81.
Definition COMCHIP_STATUS_FRAME_LEN : Z := 7.

Definition STATUS_BIT_BATTERY_ERROR : Z := Z.shiftl 1 7.
Definition STATUS_BIT_UNDER_VOLTAGE : Z := Z.shiftl 1 6.
Definition STATUS_BIT_NOT_SUPPORTED : Z := Z.shiftl 1 5.

(** ** Constants of [com-5cg.c] and [com3-cg.c] *)

Definition PACKET_LENGTH : Z := 6.
Definition STATUS_INDEX : Z := 2.
Definition VOLT_H_INDEX : Z := 3.
Definition VOLT_L_INDEX : Z := 4.
Definition CHECKSUM_INDEX : Z := 5.

Definition DISCHARGE_MASK : Z := Z.shiftl 1 0.
Definition BATTERY_SUPPORTED : Z := Z.shiftl 1 5.
Definition VOLTAGE_OK_MASK : Z := Z.shiftl 1 6.
Definition BATTERY_ERROR_MASK : Z := Z.shiftl 1 7.

Definition FRAME_SIZE : Z := 6.
Definition START_BYTE : Z := 0x55.
Definition CMD_ID_INDEX : Z := 1.
Definition ALARM_BYTE_INDEX : Z := 2.
Definition VOLTAGE_MSB_INDEX : Z := 3.
Definition VOLTAGE_LSB_INDEX : Z := 4.
Definition NO_BATTERY_ALARM_BIT : Z := 0x01.

(** ** The output structure *)

Record BatteryStatusData : Type := mkBatteryStatusData {
  battery_voltage_mV : Z;
  has_battery_error : bool;
  is_under_voltage : bool;
  is_battery_supported : bool
}.

Inductive field : Type :=
| F_battery_voltage_mV
| F_has_battery_error
| F_is_under_voltage
| F_is_battery_supported.

(** ** What the programs print

    One constructor per [printf] call of the sources, with the values of its
    arguments. *)

Inductive message : Type :=
(* com3-gm.c, process_comchip_status_packet *)
| ErrInvalidFrameSize (expected got : Z)   (* "Error: Invalid frame size. ..." *)
| ErrInvalidSync (expected got : Z)        (* "Error: Invalid SYNC byte. ..." *)
| ErrInvalidCID (expected got : Z)         (* "Error: Invalid CID. ..." *)
| ErrChecksumMismatch (calculated received : Z) (* "Error: Checksum mismatch. ..." *)
| MsgPacketVerified                        (* "Packet verified successfully!" *)
(* com-5cg.c *)
| Msg5ChecksumMismatch (calculated received : Z)
| Msg5ChecksumValid
| Msg5BatteryStatus
| Msg5CanDischarge
| Msg5Supported
| Msg5NotSupported
| Msg5VoltageOK
| Msg5VoltageNotOK
| Msg5NoError
| Msg5HasError
| Msg5Voltage (volts : Z)
| Msg5VoltageNotDisplayed
(* com3-cg.c *)
| Msg3InvalidStartByte
| Msg3ChecksumMismatch (expected found : Z)
| Msg3Voltage (volts : Z)
| Msg3NoBatteryAlarm.

Inductive event : Type :=
| EvRead (i : Z)          (* a read of element [i] of the packet *)
| EvChecksum (cid len : Z) (* entry into the checksum routine *)
| EvPrint (m : message)   (* a call of printf *)
| EvWrite (f : field).    (* an assignment through out_data *)

(** ** Machine state and the monad of the embedding *)

Record state : Type := mkState {
  packet : list byte;
  out_data : BatteryStatusData;
  trace : list event
}.

Definition M (A : Type) : Type := state -> option (A * state).

Definition ret {A} (a : A) : M A := fun s => Some (a, s).

Definition bind {A B} (m : M A) (k : A -> M B) : M B :=
  fun s => match m s with
           | Some (a, s') => k a s'
           | None => None
           end.

Notation "x <- m ;; k" := (bind m (fun x => k))
  (at level 61, m at next level, right associativity).
Notation "m ;;; k" := (bind m (fun _ => k))
  (at level 61, right associativity).

Definition emit (e : event) : M unit :=
  fun s => Some (tt, mkState (packet s) (out_data s) (trace s ++ [e])).

Definition printf (m : message) : M unit := emit (EvPrint m).

(** [p[i]] for a pointer [p] to the first element of the packet. *)
Definition load (i : Z) : M Z :=
  fun s =>
    if (0 <=? i) && (i <? Z.of_nat (length (packet s)))
    then Some (byte_val (nth (Z.to_nat i) (packet s) x00),
               mkState (packet s) (out_data s) (trace s ++ [EvRead i]))
    else None.

Definition set_field (f : field) (upd : BatteryStatusData -> BatteryStatusData)
  : M unit :=
  fun s => Some (tt, mkState (packet s) (upd (out_data s)) (trace s ++ [EvWrite f])).

Definition store_battery_voltage_mV (v : Z) : M unit :=
  set_field F_battery_voltage_mV
    (fun d => mkBatteryStatusData v (has_battery_error d)
                (is_under_voltage d) (is_battery_supported d)).

Definition store_has_battery_error (v : bool) : M unit :=
  set_field F_has_battery_error
    (fun d => mkBatteryStatusData (battery_voltage_mV d) v
                (is_under_voltage d) (is_battery_supported d)).

Definition store_is_under_voltage (v : bool) : M unit :=
  set_field F_is_under_voltage
    (fun d => mkBatteryStatusData (battery_voltage_mV d) (has_battery_error d)
                v (is_battery_supported d)).

Definition store_is_battery_supported (v : bool) : M unit :=
  set_field F_is_battery_supported
    (fun d => mkBatteryStatusData (battery_voltage_mV d) (has_battery_error d)
                (is_under_voltage d) v).

(** ** [calculate_checksum] ([com3-gm.c] lines 21-36, [com-5cg.c] lines 32-45)

    The two files have the same text. *)

(** The body of the loop after the read of [data_buffer[i]]:
    [tmp += b; if (tmp >= 256u) tmp -= 255u;] for [uint16_t tmp].  The
    subtraction is done in [unsigned int] and stored back in 16 bits. *)
Definition checksum_step (tmp b : Z) : Z :=
  let tmp1 := to_uint16 (tmp + b) in
  if 256 <=? tmp1 then to_uint16 (to_uint32 (tmp1 - 255)) else tmp1.

(** [tmp = (~tmp) & 0x00FFu; return (uint8_t)tmp;]: [tmp] is promoted to
    [int], complemented, converted to [unsigned int] for the mask. *)
Definition checksum_final (tmp : Z) : Z :=
  let tmp1 := to_uint16 (Z.land (to_uint32 (Z.lnot tmp)) 0x00FF) in
  to_uint8 tmp1.

(** [for (i = 0; i < len; i++)]: the recursion is on the number [n] of
    iterations left, [len - i]; [i] is the [uint8_t] counter. *)
Fixpoint checksum_loop (n : nat) (data_buffer i tmp : Z) : M Z :=
  match n with
  | O => ret tmp
  | S n' =>
      b <- load (data_buffer + i) ;;
      checksum_loop n' data_buffer (to_uint8 (i + 1)) (checksum_step tmp b)
  end.

(** [data_buffer] is the index in the packet that the pointer argument
    points to ([&received_packet[2]] is [2]). *)
Definition calculate_checksum (cid data_buffer len : Z) : M Z :=
  emit (EvChecksum cid len) ;;;
  tmp <- checksum_loop (Z.to_nat len) data_buffer 0 cid ;;
  ret (checksum_final tmp).

(** ** [ODM_com_checksum_calc] ([com3-cg.c] lines 17-26) *)

Fixpoint ODM_loop (n : nat) (p_data i tmp : Z) : M Z :=
  match n with
  | O => ret tmp
  | S n' =>
      b <- load (p_data + i) ;;
      let tmp1 := to_uint16 (tmp + b) in
      let tmp2 := if 256 <=? tmp1 then to_uint16 (to_uint32 (tmp1 - 255)) else tmp1 in
      ODM_loop n' p_data (to_uint8 (i + 1)) tmp2
  end.

Definition ODM_com_checksum_calc (CID p_data len : Z) : M Z :=
  emit (EvChecksum CID len) ;;;
  tmp <- ODM_loop (Z.to_nat len) p_data 0 CID ;;
  let tmp1 := to_uint16 (Z.land (to_uint32 (Z.lnot tmp)) 0x00FF) in
  ret (to_uint8 tmp1).

(** ** [process_comchip_status_packet] ([com3-gm.c] lines 51-116)

    [received_packet] points to the first element of the packet in the
    state; [out_data] points to the structure in the state. *)

Definition process_comchip_status_packet (packet_len : Z) : M bool :=
  (* 1. Frame Size Verification *)
  if negb (packet_len =? COMCHIP_STATUS_FRAME_LEN) then
    printf (ErrInvalidFrameSize COMCHIP_STATUS_FRAME_LEN packet_len) ;;;
    ret false
  else
  (* 2. Sync Byte Verification *)
  sync <- load 0 ;;
  if negb (sync =? COMCHIP_SYNC_BYTE) then
    got <- load 0 ;;
    printf (ErrInvalidSync COMCHIP_SYNC_BYTE got) ;;;
    ret false
  else
  (* 3. CID Verification *)
  cid <- load 1 ;;
  if negb (cid =? COMCHIP_CID_GET_STATUS_RESP) then
    got <- load 1 ;;
    printf (ErrInvalidCID COMCHIP_CID_GET_STATUS_RESP got) ;;;
    ret false
  else
  (* 4. Checksum Verification *)
  cid_arg <- load 1 ;;
  calculated_cs <- calculate_checksum cid_arg 2 (COMCHIP_STATUS_FRAME_LEN - 3) ;;
  received_cs <- load (packet_len - 1) ;;
  if negb (calculated_cs =? received_cs) then
    printf (ErrChecksumMismatch calculated_cs received_cs) ;;;
    ret false
  else
  printf MsgPacketVerified ;;;
  status_byte <- load 2 ;;
  voltage_high_byte <- load 3 ;;
  voltage_low_byte <- load 4 ;;
  (* 5. Calculate Battery Voltage *)
  store_battery_voltage_mV
    (to_uint16 (Z.lor (to_uint16 (Z.shiftl voltage_high_byte 8)) voltage_low_byte)) ;;;
  (* 6. Status flags *)
  store_has_battery_error
    (negb (Z.land status_byte STATUS_BIT_BATTERY_ERROR =? 0)) ;;;
  store_is_under_voltage
    (negb (Z.land status_byte STATUS_BIT_UNDER_VOLTAGE =? 0)) ;;;
  store_is_battery_supported
    (Z.land status_byte STATUS_BIT_NOT_SUPPORTED =? 0) ;;;
  ret true.

(** The sample packets of [main] in [com3-gm.c]. *)
Definition good_packet : list byte := [x55; x81; x00; x96; xfe; x00; x3f].
Definition undervoltage_packet : list byte := [x55; x81; x40; x96; xfe; x00; xff].
Definition bad_checksum_packet : list byte := [x55; x81; x00; x96; xfe; x00; x11].
Definition short_packet : list byte := [x55; x81; x00; x96; xfe; x00].

(** [good_packet] with the checksum byte that [calculate_checksum] computes
    for it. *)
Definition checked_packet : list byte := [x55; x81; x00; x96; xfe; x00; xe8].

(** A call on packet [p] with the structure holding [d] and an empty trace. *)
Definition start (p : list byte) (d : BatteryStatusData) : state :=
  mkState p d [].

Definition uninit : BatteryStatusData := mkBatteryStatusData 0 false false false.

(** ** [com-5cg.c]: [decode_battery_status] and [main]

    [packet] is the global array of the file; it is the packet of the state. *)

Definition packet_5cg : list byte := [x55; x81; x00; x96; xfe; x3f].

Definition when (c : bool) (m : M unit) : M unit := if c then m else ret tt.

Definition decode_battery_status (status : Z) : M unit :=
  printf Msg5BatteryStatus ;;;
  when (Z.land status DISCHARGE_MASK =? 0) (printf Msg5CanDischarge) ;;;
  (if Z.land status BATTERY_SUPPORTED =? 0
   then printf Msg5Supported else printf Msg5NotSupported) ;;;
  (if Z.land status VOLTAGE_OK_MASK =? 0
   then printf Msg5VoltageOK else printf Msg5VoltageNotOK) ;;;
  (if Z.land status BATTERY_ERROR_MASK =? 0
   then printf Msg5NoError else printf Msg5HasError).

Definition main_5cg : M Z :=
  (* Step 1: Check checksum *)
  cid <- load 1 ;;
  calculated <- calculate_checksum cid 2 (PACKET_LENGTH - 3) ;;
  received <- load CHECKSUM_INDEX ;;
  if negb (calculated =? received) then
    printf (Msg5ChecksumMismatch calculated received) ;;;
    ret (-1)
  else
  printf Msg5ChecksumValid ;;;
  (* Step 2: Decode battery status *)
  status <- load STATUS_INDEX ;;
  decode_battery_status status ;;;
  (* Step 3: Only print voltage if supported and no error *)
  let supported := Z.land status BATTERY_SUPPORTED =? 0 in
  let error := negb (Z.land status BATTERY_ERROR_MASK =? 0) in
  (if supported && negb error then
     h <- load VOLT_H_INDEX ;;
     l <- load VOLT_L_INDEX ;;
     let voltage_raw := to_uint16 (Z.lor (Z.shiftl (to_uint16 h) 8) l) in
     printf (Msg5Voltage (voltage_raw / 1000))
   else
     printf Msg5VoltageNotDisplayed) ;;;
  ret 0.

(** ** [com3-cg.c]: [main]

    [frame] is the local array of [main]; it is the packet of the state. *)

Definition frame_3cg : list byte := [x55; x81; x00; x6d; x60; xd2].

Definition main_3cg : M Z :=
  start_byte <- load 0 ;;
  if negb (start_byte =? START_BYTE) then
    printf Msg3InvalidStartByte ;;;
    ret 0
  else
  cid <- load CMD_ID_INDEX ;;
  checksum_calc <- ODM_com_checksum_calc cid ALARM_BYTE_INDEX 3 ;;
  cs <- load CHECKSUM_INDEX ;;
  if negb (checksum_calc =? cs) then
    found <- load CHECKSUM_INDEX ;;
    printf (Msg3ChecksumMismatch checksum_calc found) ;;;
    ret 0
  else
  alarm <- load ALARM_BYTE_INDEX ;;
  (if Z.land alarm NO_BATTERY_ALARM_BIT =? 0 then
     h <- load VOLTAGE_MSB_INDEX ;;
     l <- load VOLTAGE_LSB_INDEX ;;
     let voltage_mv := to_uint16 (Z.lor (Z.shiftl h 8) l) in
     printf (Msg3Voltage (voltage_mv / 1000))
   else
     printf Msg3NoBatteryAlarm) ;;;
  ret 0.

(** ** The reference definition of the checksum

    Follows the words of the specification: start a 16-bit accumulator at
    the command id; for each byte, in order, add it and subtract 255 when
    the accumulator is at least 256; return the bitwise complement of the
    accumulator masked to its low 8 bits. *)

Definition spec_accumulate (acc : Z) (b : byte) : Z :=
  let acc1 := (acc + byte_val b) mod 2 ^ 16 in
  if 256 <=? acc1 then acc1 - 255 else acc1.

Definition computeChecksum_spec (commandId : byte) (data : list byte) : Z :=
  let acc := fold_left spec_accumulate data (byte_val commandId) in
  Z.land (Z.lxor acc 0xFFFF) 0xFF.

(** ** Values derived from the code *)

(** The value [calculate_checksum] computes from seed [cid] and the bytes
    [data] that it reads: [checksum_step] for each byte, then
    [checksum_final]. *)
Definition checksum_of (cid : Z) (data : list byte) : Z :=
  checksum_final (fold_left checksum_step (map byte_val data) cid).

(** The result of a run, without the final state. *)
Definition result {A} (r : option (A * state)) : option A := option_map fst r.

(** ** Observations on a trace *)

Definition is_error (m : message) : bool :=
  match m with
  | ErrInvalidFrameSize _ _ | ErrInvalidSync _ _
  | ErrInvalidCID _ _ | ErrChecksumMismatch _ _ => true
  | _ => false
  end.

(** The error messages printed, in order. *)
Fixpoint errors_of (t : list event) : list message :=
  match t with
  | [] => []
  | EvPrint m :: t' => if is_error m then m :: errors_of t' else errors_of t'
  | _ :: t' => errors_of t'
  end.

(** The fields assigned through [out_data], in order. *)
Fixpoint writes_of (t : list event) : list field :=
  match t with
  | [] => []
  | EvWrite f :: t' => f :: writes_of t'
  | _ :: t' => writes_of t'
  end.

(** The indices of the packet that were read, in order. *)
Fixpoint reads_of (t : list event) : list Z :=
  match t with
  | [] => []
  | EvRead i :: t' => i :: reads_of t'
  | _ :: t' => reads_of t'
  end.

(** The number of calls of the checksum routine. *)
Fixpoint checksum_calls (t : list event) : nat :=
  match t with
  | [] => O
  | EvChecksum _ _ :: t' => S (checksum_calls t')
  | _ :: t' => checksum_calls t'
  end.

(** The reads of [n] consecutive elements from index [from]. *)
Definition reads (from : Z) (n : nat) : list event :=
  map (fun k => EvRead (from + Z.of_nat k)) (seq 0 n).

(** ** Arithmetic that describes the checksum *)

(** The sum of the values of the bytes. *)
Definition sum_bytes (data : list byte) : Z :=
  fold_right (fun b acc => byte_val b + acc) 0 data.

(** The representative of [t] modulo 255 taken in 1..255; 0 for 0. *)
Definition reduce255 (t : Z) : Z :=
  if t =? 0 then 0 else (t - 1) mod 255 + 1.

(** ** Observations on what [com-5cg.c] and [com3-cg.c] print *)

(** All messages printed, in order. *)
Fixpoint prints_of (t : list event) : list message :=
  match t with
  | [] => []
  | EvPrint m :: t' => m :: prints_of t'
  | _ :: t' => prints_of t'
  end.

(** The lines of [decode_battery_status], by the bits of the status byte. *)
Definition status_lines (status : Z) : list message :=
  [Msg5BatteryStatus]
  ++ (if Z.testbit status 0 then [] else [Msg5CanDischarge])
  ++ [if Z.testbit status 5 then Msg5NotSupported else Msg5Supported]
  ++ [if Z.testbit status 6 then Msg5VoltageNotOK else Msg5VoltageOK]
  ++ [if Z.testbit status 7 then Msg5HasError else Msg5NoError].

(** * Properties *)

(** ** Bytes and conversions *)

Lemma byte_val_range (b : byte) : 0 <= byte_val b < 256.
Proof.
  unfold byte_val. pose proof (Byte.to_N_bounded b). lia.
Qed.

Lemma to_uint16_small (z : Z) : 0 <= z < 65536 -> to_uint16 z = z.
Proof. intros H. unfold to_uint16. apply Z.mod_small. exact H. Qed.

Lemma to_uint32_small (z : Z) : 0 <= z < 4294967296 -> to_uint32 z = z.
Proof. intros H. unfold to_uint32. apply Z.mod_small. exact H. Qed.

Lemma to_uint8_small (z : Z) : 0 <= z < 256 -> to_uint8 z = z.
Proof. intros H. unfold to_uint8. apply Z.mod_small. exact H. Qed.

(** The complement of an 8-bit value, masked to 8 bits, is [255 - z]. *)
Lemma lnot_land_255 (z : Z) : 0 <= z < 256 -> Z.land (Z.lnot z) 255 = 255 - z.
Proof.
  intros H. change 255 with (Z.ones 8) at 1.
  rewrite Z.land_ones by lia.
  unfold Z.lnot.
  replace (Z.pred (- z)) with (255 - z + (-1) * 2 ^ 8) by lia.
  rewrite Z.mod_add by lia.
  apply Z.mod_small. lia.
Qed.

(** The 16-bit complement of an 8-bit value, masked to 8 bits. *)
Lemma lxor_land_255 (z : Z) :
  0 <= z < 256 -> Z.land (Z.lxor z 0xFFFF) 0xFF = 255 - z.
Proof.
  intros H. rewrite <- (lnot_land_255 z H).
  apply Z.bits_inj'. intros n Hn.
  rewrite !Z.land_spec, Z.lxor_spec, Z.lnot_spec by lia.
  change 255 with (Z.ones 8). change 65535 with (Z.ones 16).
  destruct (Z.ltb_spec n 8).
  - rewrite (Z.ones_spec_low 16 n) by lia. rewrite xorb_true_r. reflexivity.
  - rewrite (Z.ones_spec_high 8 n) by lia. rewrite !andb_false_r. reflexivity.
Qed.

Lemma checksum_final_small (tmp : Z) :
  0 <= tmp < 256 -> checksum_final tmp = 255 - tmp.
Proof.
  intros H. unfold checksum_final.
  assert (E : to_uint32 (Z.lnot tmp) = 4294967295 - tmp).
  { unfold to_uint32, Z.lnot.
    replace (Z.pred (- tmp)) with (4294967295 - tmp + (-1) * 4294967296) by lia.
    rewrite Z.mod_add by lia. apply Z.mod_small. lia. }
  rewrite E.
  assert (L : Z.land (4294967295 - tmp) 255 = 255 - tmp).
  { change 255 with (Z.ones 8) at 1. rewrite Z.land_ones by lia.
    replace (4294967295 - tmp) with (255 - tmp + 16777215 * 2 ^ 8) by lia.
    rewrite Z.mod_add by lia. apply Z.mod_small. lia. }
  rewrite L.
  rewrite to_uint16_small by lia. apply to_uint8_small. lia.
Qed.

(** ** One iteration of the checksum loop *)

Lemma checksum_step_small (tmp b : Z) :
  0 <= tmp < 256 -> 0 <= b < 256 ->
  checksum_step tmp b = (if 256 <=? tmp + b then tmp + b - 255 else tmp + b)
  /\ 0 <= checksum_step tmp b < 256.
Proof.
  intros Ht Hb. unfold checksum_step.
  rewrite (to_uint16_small (tmp + b)) by lia.
  destruct (256 <=? tmp + b) eqn:E.
  - apply Z.leb_le in E.
    rewrite to_uint32_small by lia. rewrite to_uint16_small by lia. lia.
  - apply Z.leb_gt in E. lia.
Qed.

Lemma checksum_step_spec (tmp : Z) (b : byte) :
  0 <= tmp < 256 -> checksum_step tmp (byte_val b) = spec_accumulate tmp b.
Proof.
  intros Ht. pose proof (byte_val_range b) as Hb.
  destruct (checksum_step_small tmp (byte_val b) Ht Hb) as [-> _].
  unfold spec_accumulate. change (2 ^ 16) with 65536.
  rewrite Z.mod_small by lia. reflexivity.
Qed.

Lemma fold_checksum_step_range (data : list byte) (tmp : Z) :
  0 <= tmp < 256 ->
  0 <= fold_left checksum_step (map byte_val data) tmp < 256.
Proof.
  revert tmp. induction data as [|b data IH]; intros tmp Ht; simpl.
  - exact Ht.
  - apply IH. apply checksum_step_small; [exact Ht | apply byte_val_range].
Qed.

Lemma fold_checksum_step_spec (data : list byte) (tmp : Z) :
  0 <= tmp < 256 ->
  fold_left checksum_step (map byte_val data) tmp
  = fold_left spec_accumulate data tmp.
Proof.
  revert tmp. induction data as [|b data IH]; intros tmp Ht; simpl.
  - reflexivity.
  - rewrite <- checksum_step_spec by exact Ht.
    apply IH. apply checksum_step_small; [exact Ht | apply byte_val_range].
Qed.

(** ** Running the monad *)

Lemma bind_run {A B} (m : M A) (k : A -> M B) (s s' : state) (a : A) :
  m s = Some (a, s') -> bind m k s = k a s'.
Proof. intros H. unfold bind. rewrite H. reflexivity. Qed.

Lemma load_run (i : Z) (s : state) :
  0 <= i < Z.of_nat (length (packet s)) ->
  load i s = Some (byte_val (nth (Z.to_nat i) (packet s) x00),
                   mkState (packet s) (out_data s) (trace s ++ [EvRead i])).
Proof.
  intros H. unfold load.
  destruct (0 <=? i) eqn:E1; [|apply Z.leb_gt in E1; lia].
  destruct (i <? Z.of_nat (length (packet s))) eqn:E2; [|apply Z.ltb_ge in E2; lia].
  reflexivity.
Qed.

Lemma load_out_of_bounds (i : Z) (s : state) :
  i < 0 \/ Z.of_nat (length (packet s)) <= i -> load i s = None.
Proof.
  intros H. unfold load.
  destruct (0 <=? i) eqn:E1; [|reflexivity].
  destruct (i <? Z.of_nat (length (packet s))) eqn:E2; [|reflexivity].
  apply Z.leb_le in E1. apply Z.ltb_lt in E2. lia.
Qed.

Lemma reads_S (from : Z) (n : nat) :
  reads from (S n) = EvRead from :: reads (from + 1) n.
Proof.
  unfold reads. simpl. rewrite Z.add_0_r. f_equal.
  rewrite <- seq_shift, map_map.
  apply map_ext. intros k. f_equal. lia.
Qed.

(** The loop, started at counter [i] with [n] iterations to go, reads the
    [n] bytes at [data_buffer + i] and folds [checksum_step] over them. *)
Lemma checksum_loop_run (n : nat) :
  forall (pre data post : list byte) (i tmp : Z) (s : state),
    packet s = pre ++ data ++ post ->
    length data = n ->
    0 <= i -> i + Z.of_nat n <= 255 ->
    forall data_buffer, data_buffer + i = Z.of_nat (length pre) ->
    checksum_loop n data_buffer i tmp s
    = Some (fold_left checksum_step (map byte_val data) tmp,
            mkState (packet s) (out_data s)
                    (trace s ++ reads (data_buffer + i) n)).
Proof.
  induction n as [|n IH]; intros pre data post i tmp s Hp Hl Hi Hn p Hpi.
  - destruct data; [|discriminate]. simpl. unfold ret, reads. simpl.
    rewrite app_nil_r. destruct s; reflexivity.
  - destruct data as [|b data]; [discriminate|].
    simpl in Hl. injection Hl as Hl.
    cbn [checksum_loop].
    assert (Hlen : 0 <= p + i < Z.of_nat (length (packet s))).
    { rewrite Hp, Hpi, !length_app. simpl. lia. }
    rewrite (bind_run _ _ _ _ _ (load_run _ _ Hlen)).
    assert (Hb : nth (Z.to_nat (p + i)) (packet s) x00 = b).
    { rewrite Hp, Hpi, Nat2Z.id, app_nth2 by lia.
      rewrite Nat.sub_diag. reflexivity. }
    rewrite Hb.
    rewrite to_uint8_small by lia.
    rewrite (IH (pre ++ [b]) data post (i + 1) (checksum_step tmp (byte_val b))).
    + cbn [packet out_data trace map fold_left].
      rewrite reads_S, <- app_assoc. simpl.
      replace (p + (i + 1)) with (p + i + 1) by lia. reflexivity.
    + cbn [packet]. rewrite Hp, <- app_assoc. reflexivity.
    + exact Hl.
    + lia.
    + lia.
    + rewrite length_app. simpl. lia.
Qed.

Lemma calculate_checksum_run (cid : Z) (pre data post : list byte) (s : state) :
  packet s = pre ++ data ++ post ->
  (length data <= 255)%nat ->
  calculate_checksum cid (Z.of_nat (length pre)) (Z.of_nat (length data)) s
  = Some (checksum_final (fold_left checksum_step (map byte_val data) cid),
          mkState (packet s) (out_data s)
                  (trace s ++ EvChecksum cid (Z.of_nat (length data))
                     :: reads (Z.of_nat (length pre)) (length data))).
Proof.
  intros Hp Hl. unfold calculate_checksum.
  pose (s1 := mkState (packet s) (out_data s)
                (trace s ++ [EvChecksum cid (Z.of_nat (length data))])).
  assert (E : emit (EvChecksum cid (Z.of_nat (length data))) s = Some (tt, s1))
    by reflexivity.
  rewrite (bind_run _ _ _ _ _ E).
  rewrite Nat2Z.id.
  assert (H0 : 0 <= 0) by lia.
  assert (Hn : 0 + Z.of_nat (length data) <= 255) by lia.
  assert (Hb : Z.of_nat (length pre) + 0 = Z.of_nat (length pre)) by lia.
  rewrite (bind_run _ _ _ _ _
             (checksum_loop_run (length data) pre data post 0 cid s1 Hp eq_refl
                H0 Hn (Z.of_nat (length pre)) Hb)).
  unfold ret, s1. cbn [packet out_data trace].
  rewrite Z.add_0_r, <- app_assoc. reflexivity.
Qed.

(** [ODM_com_checksum_calc] of [com3-cg.c] is the same function. *)
Lemma ODM_loop_eq (n : nat) :
  forall (p i tmp : Z) (s : state),
    ODM_loop n p i tmp s = checksum_loop n p i tmp s.
Proof.
  induction n as [|n IH]; intros p i tmp s; simpl.
  - reflexivity.
  - unfold bind. destruct (load (p + i) s) as [[b s1]|]; [|reflexivity].
    apply IH.
Qed.

Lemma ODM_com_checksum_calc_eq (CID p len : Z) (s : state) :
  ODM_com_checksum_calc CID p len s = calculate_checksum CID p len s.
Proof.
  unfold ODM_com_checksum_calc, calculate_checksum, bind.
  destruct (emit (EvChecksum CID len) s) as [[u s1]|]; [|reflexivity].
  rewrite ODM_loop_eq.
  destruct (checksum_loop (Z.to_nat len) p 0 CID s1) as [[tmp s2]|]; reflexivity.
Qed.

(** ** The decoder on a packet of seven bytes *)

Lemma bind_load {B} (i : Z) (k : Z -> M B) (raw : list byte)
      (d : BatteryStatusData) (t : list event) (b : byte) :
  (0 <=? i) = true ->
  nth_error raw (Z.to_nat i) = Some b ->
  bind (load i) k (mkState raw d t)
  = k (byte_val b) (mkState raw d (t ++ [EvRead i])).
Proof.
  intros Hi Hb.
  assert (Hlt : (Z.to_nat i < length raw)%nat).
  { apply nth_error_Some. rewrite Hb. discriminate. }
  apply Z.leb_le in Hi.
  assert (Hin : 0 <= i < Z.of_nat (length (packet (mkState raw d t))))
    by (cbn [packet]; lia).
  rewrite (bind_run (load i) k _ _ _ (load_run i _ Hin)).
  cbn [packet out_data trace].
  rewrite (nth_error_nth raw (Z.to_nat i) x00 Hb). reflexivity.
Qed.

Lemma bind_emit {B} (e : event) (k : unit -> M B) (s : state) :
  bind (emit e) k s = k tt (mkState (packet s) (out_data s) (trace s ++ [e])).
Proof. reflexivity. Qed.

Lemma bind_set_field {B} (f : field) (upd : BatteryStatusData -> BatteryStatusData)
      (k : unit -> M B) (s : state) :
  bind (set_field f upd) k s
  = k tt (mkState (packet s) (upd (out_data s)) (trace s ++ [EvWrite f])).
Proof. reflexivity. Qed.

Lemma if_run {A} (c : bool) (m1 m2 : M A) (s : state) :
  (if c then m1 else m2) s = if c then m1 s else m2 s.
Proof. destruct c; reflexivity. Qed.

(** One step of symbolic execution on a packet given by its elements. *)
Ltac run_step :=
  lazymatch goal with
  | |- context [bind (load ?i) ?k (mkState ?raw ?d ?t)] =>
      let b := eval cbv in (nth (Z.to_nat i) raw x00) in
      rewrite (bind_load i k raw d t b eq_refl eq_refl)
  | |- context [bind (printf ?m) ?k ?s] =>
      unfold printf at 1; rewrite (bind_emit (EvPrint m) k s)
  | |- context [bind (emit ?e) ?k ?s] =>
      rewrite (bind_emit e k s)
  | |- context [bind (set_field ?f ?u) ?k ?s] =>
      rewrite (bind_set_field f u k s)
  end;
  cbv beta; cbn [packet out_data trace app].

Section SevenBytes.

Variables b0 b1 b2 b3 b4 b5 b6 : byte.
Variable d : BatteryStatusData.

Let raw : list byte := [b0; b1; b2; b3; b4; b5; b6].

(** The run of the decoder on seven bytes, by cases on its three tests. *)
Lemma process_run_7 :
  let hdr := [EvRead 0; EvRead 1; EvRead 1; EvChecksum (byte_val b1) 4;
              EvRead 2; EvRead 3; EvRead 4; EvRead 5; EvRead 6] in
  process_comchip_status_packet 7 (start raw d)
  = if negb (byte_val b0 =? COMCHIP_SYNC_BYTE) then
      Some (false, mkState raw d
              [EvRead 0; EvRead 0;
               EvPrint (ErrInvalidSync COMCHIP_SYNC_BYTE (byte_val b0))])
    else if negb (byte_val b1 =? COMCHIP_CID_GET_STATUS_RESP) then
      Some (false, mkState raw d
              [EvRead 0; EvRead 1; EvRead 1;
               EvPrint (ErrInvalidCID COMCHIP_CID_GET_STATUS_RESP (byte_val b1))])
    else if negb (checksum_of (byte_val b1) [b2; b3; b4; b5] =? byte_val b6) then
      Some (false, mkState raw d
              (hdr ++ [EvPrint (ErrChecksumMismatch
                                  (checksum_of (byte_val b1) [b2; b3; b4; b5])
                                  (byte_val b6))]))
    else
      Some (true, mkState raw
              (mkBatteryStatusData
                 (to_uint16 (Z.lor (to_uint16 (Z.shiftl (byte_val b3) 8)) (byte_val b4)))
                 (negb (Z.land (byte_val b2) STATUS_BIT_BATTERY_ERROR =? 0))
                 (negb (Z.land (byte_val b2) STATUS_BIT_UNDER_VOLTAGE =? 0))
                 (Z.land (byte_val b2) STATUS_BIT_NOT_SUPPORTED =? 0))
              (hdr ++ [EvPrint MsgPacketVerified; EvRead 2; EvRead 3; EvRead 4;
                       EvWrite F_battery_voltage_mV; EvWrite F_has_battery_error;
                       EvWrite F_is_under_voltage; EvWrite F_is_battery_supported])).
Proof.
  intros hdr. subst raw hdr.
  unfold process_comchip_status_packet, start.
  change (negb (7 =? COMCHIP_STATUS_FRAME_LEN)) with false. cbv iota.
  run_step. rewrite if_run.
  destruct (negb (byte_val b0 =? COMCHIP_SYNC_BYTE)).
  { do 2 run_step. reflexivity. }
  run_step. rewrite if_run.
  destruct (negb (byte_val b1 =? COMCHIP_CID_GET_STATUS_RESP)).
  { do 2 run_step. reflexivity. }
  run_step.
  change (COMCHIP_STATUS_FRAME_LEN - 3) with (Z.of_nat (length [b2; b3; b4; b5])).
  change 2 with (Z.of_nat (length [b0; b1])) at 1.
  assert (Hlen : (length [b2; b3; b4; b5] <= 255)%nat) by (simpl; lia).
  lazymatch goal with
  | |- context [bind (calculate_checksum ?c _ _) ?k ?s] =>
      rewrite (bind_run _ k s _ _
                 (calculate_checksum_run c [b0; b1] [b2; b3; b4; b5] [b6]
                    s eq_refl Hlen))
  end.
  cbn [packet out_data trace app length].
  change (7 - 1) with 6.
  run_step. rewrite if_run. fold (checksum_of (byte_val b1) [b2; b3; b4; b5]).
  destruct (negb (checksum_of (byte_val b1) [b2; b3; b4; b5] =? byte_val b6)).
  { run_step. reflexivity. }
  run_step. run_step. run_step. run_step.
  unfold store_battery_voltage_mV, store_has_battery_error,
    store_is_under_voltage, store_is_battery_supported.
  do 4 run_step.
  reflexivity.
Qed.

End SevenBytes.

(** A packet_len other than the frame length: one message, nothing else. *)
Lemma process_run_bad_length (packet_len : Z) (s : state) :
  packet_len <> COMCHIP_STATUS_FRAME_LEN ->
  process_comchip_status_packet packet_len s
  = Some (false,
          mkState (packet s) (out_data s)
            (trace s ++ [EvPrint (ErrInvalidFrameSize COMCHIP_STATUS_FRAME_LEN
                                    packet_len)])).
Proof.
  intros H. unfold process_comchip_status_packet.
  destruct (packet_len =? COMCHIP_STATUS_FRAME_LEN) eqn:E.
  - apply Z.eqb_eq in E. contradiction.
  - reflexivity.
Qed.

Lemma length_7_inv (raw : list byte) :
  length raw = 7%nat ->
  exists b0 b1 b2 b3 b4 b5 b6, raw = [b0; b1; b2; b3; b4; b5; b6].
Proof.
  intros H.
  destruct raw as [|b0 [|b1 [|b2 [|b3 [|b4 [|b5 [|b6 [|b7 raw]]]]]]]];
    try discriminate H.
  exists b0, b1, b2, b3, b4, b5, b6. reflexivity.
Qed.

(** ** Bits of the status byte and the voltage *)

Lemma land_bit_eqb (x k : Z) :
  0 <= k -> (Z.land x (Z.shiftl 1 k) =? 0) = negb (Z.testbit x k).
Proof.
  intros Hk. rewrite Z.shiftl_1_l.
  assert (E : Z.land x (2 ^ k) = if Z.testbit x k then 2 ^ k else 0).
  { apply Z.bits_inj'. intros n Hn.
    rewrite Z.land_spec, Z.pow2_bits_eqb by lia.
    destruct (Z.eqb_spec k n) as [->|Hne].
    - destruct (Z.testbit x n) eqn:T.
      + rewrite Z.pow2_bits_true by lia. reflexivity.
      + rewrite Z.bits_0. reflexivity.
    - rewrite andb_false_r.
      destruct (Z.testbit x k).
      + rewrite Z.pow2_bits_false by lia. reflexivity.
      + rewrite Z.bits_0. reflexivity. }
  rewrite E. destruct (Z.testbit x k); simpl.
  - apply Z.eqb_neq. pose proof (Z.pow_pos_nonneg 2 k). lia.
  - reflexivity.
Qed.

Lemma lor_shiftl_8 (h l : Z) :
  0 <= h < 256 -> 0 <= l < 256 ->
  Z.lor (Z.shiftl h 8) l = 256 * h + l.
Proof.
  intros Hh Hl.
  rewrite Z.shiftl_mul_pow2 by lia.
  assert (D : Z.land (h * 2 ^ 8) l = 0).
  { apply Z.bits_inj'. intros n Hn. rewrite Z.land_spec, Z.bits_0.
    destruct (Z.ltb_spec n 8).
    - rewrite Z.mul_pow2_bits_low by lia. reflexivity.
    - rewrite (Z.bits_above_log2 l n), andb_false_r; [reflexivity|lia|].
      destruct (Z.eq_dec l 0) as [->|]; [simpl; lia|].
      apply Z.log2_lt_pow2; [lia|].
      apply Z.lt_le_trans with (2 ^ 8); [simpl; lia|].
      apply Z.pow_le_mono_r; lia. }
  rewrite <- Z.lxor_lor by exact D.
  rewrite <- Z.add_nocarry_lxor by exact D.
  change (2 ^ 8) with 256. lia.
Qed.

Lemma voltage_value (h l : byte) :
  to_uint16 (Z.lor (to_uint16 (Z.shiftl (byte_val h) 8)) (byte_val l))
  = 256 * byte_val h + byte_val l.
Proof.
  pose proof (byte_val_range h). pose proof (byte_val_range l).
  rewrite (to_uint16_small (Z.shiftl (byte_val h) 8)).
  - rewrite lor_shiftl_8 by assumption. apply to_uint16_small. lia.
  - rewrite Z.shiftl_mul_pow2 by lia. change (2 ^ 8) with 256. lia.
Qed.

(** * The claims *)

(** ** Checksum *)

(** C1. [calculate_checksum], called with a command-id byte and a pointer to
    [data] inside the packet, returns the value of the reference definition:
    accumulator started at the command id, each byte added in order with 255
    subtracted when the accumulator reaches 256, complement masked to 8
    bits.  The routine reads exactly the bytes of [data] and changes
    nothing.  The length is a [uint8_t], so [data] has at most 255 bytes. *)
Theorem calculate_checksum_refines_spec
        (cid : byte) (pre data post : list byte) (s : state) :
  packet s = pre ++ data ++ post ->
  (length data <= 255)%nat ->
  calculate_checksum (byte_val cid) (Z.of_nat (length pre))
                     (Z.of_nat (length data)) s
  = Some (computeChecksum_spec cid data,
          mkState (packet s) (out_data s)
            (trace s ++ EvChecksum (byte_val cid) (Z.of_nat (length data))
               :: reads (Z.of_nat (length pre)) (length data))).
Proof.
  intros Hp Hl.
  rewrite (calculate_checksum_run (byte_val cid) pre data post s Hp Hl).
  pose proof (byte_val_range cid) as Hc.
  pose proof (fold_checksum_step_range data (byte_val cid) Hc) as Hr.
  rewrite checksum_final_small by exact Hr.
  unfold computeChecksum_spec. cbv zeta.
  rewrite <- fold_checksum_step_spec by exact Hc.
  rewrite lxor_land_255 by exact Hr.
  reflexivity.
Qed.

Lemma calculate_checksum_refines_spec_witness :
  calculate_checksum (byte_val x81) 2 4 (start good_packet uninit)
  = Some (computeChecksum_spec x81 [x00; x96; xfe; x00],
          mkState good_packet uninit
            [EvChecksum (byte_val x81) 4;
             EvRead 2; EvRead 3; EvRead 4; EvRead 5]).
Proof.
  apply (calculate_checksum_refines_spec x81 [x55; x81] [x00; x96; xfe; x00]
           [x3f] (start good_packet uninit)).
  - reflexivity.
  - simpl. lia.
Defined.

(** C3 (as the code has it).  For command id 0x81 and data 0x00, 0x96, 0xFE
    the routine returns 0xE8, and so does the reference definition: the
    accumulator goes 129, 129, 279 - 255 = 24, 278 - 255 = 23, and the
    complement of 23 in 8 bits is 232. *)
Theorem known_vector_checksum :
  result (calculate_checksum 0x81 0 3 (start [x00; x96; xfe] uninit))
  = Some 0xE8
  /\ computeChecksum_spec x81 [x00; x96; xfe] = 0xE8.
Proof. split; vm_compute; reflexivity. Qed.

(** The value is not the 0x3F of the sample packets. *)
Lemma sample_checksum_0x3F_refuted :
  result (calculate_checksum 0x81 0 3 (start [x00; x96; xfe] uninit))
  <> Some 0x3F.
Proof. vm_compute. discriminate. Qed.

(** [main] of [com-5cg.c] on its own packet stops at the checksum test. *)
Lemma main_5cg_sample_run :
  main_5cg (start packet_5cg uninit)
  = Some (-1, mkState packet_5cg uninit
                [EvRead 1; EvChecksum 0x81 3; EvRead 2; EvRead 3; EvRead 4;
                 EvRead 5; EvPrint (Msg5ChecksumMismatch 0xE8 0x3F)]).
Proof. vm_compute. reflexivity. Qed.

(** [main] of [com3-cg.c] on its own frame stops at the checksum test. *)
Lemma main_3cg_sample_run :
  main_3cg (start frame_3cg uninit)
  = Some (0, mkState frame_3cg uninit
               [EvRead 0; EvRead 1; EvChecksum 0x81 3; EvRead 2; EvRead 3;
                EvRead 4; EvRead 5; EvRead 5;
                EvPrint (Msg3ChecksumMismatch 0xB0 0xD2)]).
Proof. vm_compute. reflexivity. Qed.

(** C8. The checksum is a function of the command id and of the [len] bytes
    its pointer designates: two calls on the same bytes, wherever they lie
    and whatever the rest of the state holds, return the same value, and a
    call leaves the packet and the output structure as they were.  The same
    holds for [ODM_com_checksum_calc], and for two calls in a row. *)
Theorem checksum_deterministic_and_pure
        (cid : byte) (data pre1 post1 pre2 post2 : list byte) (s1 s2 : state) :
  packet s1 = pre1 ++ data ++ post1 ->
  packet s2 = pre2 ++ data ++ post2 ->
  (length data <= 255)%nat ->
  let len := Z.of_nat (length data) in
  let p1 := Z.of_nat (length pre1) in
  let p2 := Z.of_nat (length pre2) in
  exists (v : Z) (s1' s2' s1'' : state),
    calculate_checksum (byte_val cid) p1 len s1 = Some (v, s1')
    /\ calculate_checksum (byte_val cid) p2 len s2 = Some (v, s2')
    /\ ODM_com_checksum_calc (byte_val cid) p1 len s1 = Some (v, s1')
    /\ ODM_com_checksum_calc (byte_val cid) p2 len s2 = Some (v, s2')
    /\ (a <- calculate_checksum (byte_val cid) p1 len ;;
        b <- calculate_checksum (byte_val cid) p1 len ;;
        ret (a, b)) s1 = Some ((v, v), s1'')
    /\ packet s1' = packet s1 /\ out_data s1' = out_data s1
    /\ packet s2' = packet s2 /\ out_data s2' = out_data s2
    /\ packet s1'' = packet s1 /\ out_data s1'' = out_data s1.
Proof.
  intros H1 H2 Hl len p1 p2. subst len p1 p2.
  pose proof (calculate_checksum_run (byte_val cid) pre1 data post1 s1 H1 Hl) as R1.
  pose proof (calculate_checksum_run (byte_val cid) pre2 data post2 s2 H2 Hl) as R2.
  match type of R1 with _ = Some (_, ?s) => set (s1' := s) in * end.
  match type of R2 with _ = Some (_, ?s) => set (s2' := s) in * end.
  assert (H1' : packet s1' = pre1 ++ data ++ post1) by exact H1.
  pose proof (calculate_checksum_run (byte_val cid) pre1 data post1 s1' H1' Hl) as R3.
  match type of R3 with _ = Some (_, ?s) => set (s1'' := s) in * end.
  exists (checksum_final (fold_left checksum_step (map byte_val data) (byte_val cid))),
    s1', s2', s1''.
  split; [exact R1|]. split; [exact R2|].
  split; [rewrite ODM_com_checksum_calc_eq; exact R1|].
  split; [rewrite ODM_com_checksum_calc_eq; exact R2|].
  split.
  { rewrite (bind_run _ _ _ _ _ R1). rewrite (bind_run _ _ _ _ _ R3).
    reflexivity. }
  repeat split; reflexivity.
Qed.

Lemma checksum_deterministic_and_pure_witness :
  exists (v : Z) (s1' s2' s1'' : state),
    calculate_checksum (byte_val x81) 2 3 (start packet_5cg uninit) = Some (v, s1')
    /\ calculate_checksum (byte_val x81) 0 3 (start [x00; x96; xfe] uninit)
       = Some (v, s2')
    /\ ODM_com_checksum_calc (byte_val x81) 2 3 (start packet_5cg uninit)
       = Some (v, s1')
    /\ ODM_com_checksum_calc (byte_val x81) 0 3 (start [x00; x96; xfe] uninit)
       = Some (v, s2')
    /\ (a <- calculate_checksum (byte_val x81) 2 3 ;;
        b <- calculate_checksum (byte_val x81) 2 3 ;;
        ret (a, b)) (start packet_5cg uninit) = Some ((v, v), s1'')
    /\ packet s1' = packet_5cg /\ out_data s1' = uninit
    /\ packet s2' = [x00; x96; xfe] /\ out_data s2' = uninit
    /\ packet s1'' = packet_5cg /\ out_data s1'' = uninit.
Proof.
  apply (checksum_deterministic_and_pure x81 [x00; x96; xfe]
           [x55; x81] [x3f] [] []
           (start packet_5cg uninit) (start [x00; x96; xfe] uninit)).
  - reflexivity.
  - reflexivity.
  - simpl. lia.
Defined.

(** C9. After any number [k] of iterations of the loop the accumulator is
    below 256; from such a value, adding a byte and subtracting 255 once when
    the sum reaches 256 gives again a value below 256, so no second
    reduction is needed; the value that is complemented at the end is below
    256 and its masked complement is [255 - acc]. *)
Theorem accumulator_stays_below_256
        (cid : byte) (pre data post : list byte) (s : state) (k : nat) :
  packet s = pre ++ data ++ post ->
  (length data <= 255)%nat ->
  (k <= length data)%nat ->
  exists (acc : Z) (s' : state),
    checksum_loop k (Z.of_nat (length pre)) 0 (byte_val cid) s = Some (acc, s')
    /\ 0 <= acc < 256
    /\ (forall b : byte,
           checksum_step acc (byte_val b)
           = (if 256 <=? acc + byte_val b
              then acc + byte_val b - 255 else acc + byte_val b)
           /\ 0 <= checksum_step acc (byte_val b) < 256)
    /\ checksum_final acc = 255 - acc.
Proof.
  intros Hp Hl Hk.
  assert (Hsplit : packet s = pre ++ firstn k data ++ (skipn k data ++ post)).
  { rewrite Hp, app_assoc, (app_assoc (firstn k data)), firstn_skipn,
      <- app_assoc. reflexivity. }
  assert (Hlen : length (firstn k data) = k) by (rewrite length_firstn; lia).
  assert (H0 : 0 <= 0) by lia.
  assert (Hn : 0 + Z.of_nat k <= 255) by lia.
  assert (Hb : Z.of_nat (length pre) + 0 = Z.of_nat (length pre)) by lia.
  pose proof (checksum_loop_run k pre (firstn k data) (skipn k data ++ post)
                0 (byte_val cid) s Hsplit Hlen H0 Hn _ Hb) as R.
  pose proof (fold_checksum_step_range (firstn k data) (byte_val cid)
                (byte_val_range cid)) as Hr.
  eexists. eexists. split; [exact R|].
  split; [exact Hr|]. split.
  - intros b. apply checksum_step_small; [exact Hr | apply byte_val_range].
  - apply checksum_final_small. exact Hr.
Qed.

Lemma accumulator_stays_below_256_witness :
  exists (acc : Z) (s' : state),
    checksum_loop 3 2 0 (byte_val x81) (start good_packet uninit) = Some (acc, s')
    /\ 0 <= acc < 256
    /\ (forall b : byte,
           checksum_step acc (byte_val b)
           = (if 256 <=? acc + byte_val b
              then acc + byte_val b - 255 else acc + byte_val b)
           /\ 0 <= checksum_step acc (byte_val b) < 256)
    /\ checksum_final acc = 255 - acc.
Proof.
  apply (accumulator_stays_below_256 x81 [x55; x81] [x00; x96; xfe; x00] [x3f]
           (start good_packet uninit) 3).
  - reflexivity.
  - simpl. lia.
  - simpl. lia.
Defined.

(** ** Decoder *)

(** C6. Whatever the packet holds, a [packet_len] other than the frame
    length 7 makes the decoder print the frame-size error and return
    [false]; the trace has that one event, so no element of the packet was
    read, the checksum routine was not entered and the output structure was
    not written. *)
Theorem wrong_length_rejected_before_any_read
        (raw : list byte) (d : BatteryStatusData) (packet_len : Z) :
  packet_len <> COMCHIP_STATUS_FRAME_LEN ->
  exists s' : state,
    process_comchip_status_packet packet_len (start raw d) = Some (false, s')
    /\ trace s' = [EvPrint (ErrInvalidFrameSize COMCHIP_STATUS_FRAME_LEN packet_len)]
    /\ reads_of (trace s') = []
    /\ checksum_calls (trace s') = 0%nat
    /\ errors_of (trace s')
       = [ErrInvalidFrameSize COMCHIP_STATUS_FRAME_LEN packet_len]
    /\ packet s' = raw /\ out_data s' = d.
Proof.
  intros H. eexists. split.
  - apply (process_run_bad_length packet_len (start raw d) H).
  - cbn. repeat split; reflexivity.
Qed.

Lemma wrong_length_rejected_before_any_read_witness :
  exists s' : state,
    process_comchip_status_packet 6 (start short_packet uninit) = Some (false, s')
    /\ trace s' = [EvPrint (ErrInvalidFrameSize COMCHIP_STATUS_FRAME_LEN 6)]
    /\ reads_of (trace s') = []
    /\ checksum_calls (trace s') = 0%nat
    /\ errors_of (trace s') = [ErrInvalidFrameSize COMCHIP_STATUS_FRAME_LEN 6]
    /\ packet s' = short_packet /\ out_data s' = uninit.
Proof.
  apply (wrong_length_rejected_before_any_read short_packet uninit 6).
  unfold COMCHIP_STATUS_FRAME_LEN. lia.
Defined.

(** C7. A packet of seven bytes whose first byte is not 0x55 makes the
    decoder print the sync error and return [false] after reading element 0
    only (for the test and for the message); the checksum routine is not
    entered and the output structure is not written.  [main] of
    [com3-cg.c], run on a frame of six bytes whose first byte is not 0x55,
    likewise returns before its checksum call. *)
Theorem bad_sync_rejected_before_checksum
        (raw : list byte) (d : BatteryStatusData) :
  length raw = 7%nat ->
  byte_val (nth 0 raw x00) <> COMCHIP_SYNC_BYTE ->
  (exists s' : state,
      process_comchip_status_packet (Z.of_nat (length raw)) (start raw d)
      = Some (false, s')
      /\ errors_of (trace s')
         = [ErrInvalidSync COMCHIP_SYNC_BYTE (byte_val (nth 0 raw x00))]
      /\ checksum_calls (trace s') = 0%nat
      /\ reads_of (trace s') = [0; 0]
      /\ packet s' = raw /\ out_data s' = d)
  /\ (forall frame : list byte,
         length frame = 6%nat ->
         byte_val (nth 0 frame x00) <> START_BYTE ->
         exists s' : state,
           main_3cg (start frame d) = Some (0, s')
           /\ trace s' = [EvRead 0; EvPrint Msg3InvalidStartByte]
           /\ checksum_calls (trace s') = 0%nat).
Proof.
  intros Hlen Hsync. split.
  - rewrite Hlen.
    destruct (length_7_inv raw Hlen) as (b0 & b1 & b2 & b3 & b4 & b5 & b6 & ->).
    cbn [nth] in *. change (Z.of_nat 7) with 7.
    rewrite process_run_7.
    apply Z.eqb_neq in Hsync. rewrite Hsync. cbn [negb].
    eexists. split; [reflexivity|]. cbn. repeat split; reflexivity.
  - intros frame Hf Hstart.
    destruct frame as [|b0 frame]; [discriminate Hf|].
    cbn [nth] in Hstart. apply Z.eqb_neq in Hstart.
    unfold main_3cg, start.
    run_step. rewrite if_run, Hstart. cbn [negb].
    run_step. eexists. split; [reflexivity|]. cbn. split; reflexivity.
Qed.

Lemma bad_sync_rejected_before_checksum_witness :
  let raw := [xaa; x81; x00; x96; xfe; x00; xe8] in
  (exists s' : state,
      process_comchip_status_packet (Z.of_nat (length raw)) (start raw uninit)
      = Some (false, s')
      /\ errors_of (trace s')
         = [ErrInvalidSync COMCHIP_SYNC_BYTE (byte_val (nth 0 raw x00))]
      /\ checksum_calls (trace s') = 0%nat
      /\ reads_of (trace s') = [0; 0]
      /\ packet s' = raw /\ out_data s' = uninit)
  /\ (forall frame : list byte,
         length frame = 6%nat ->
         byte_val (nth 0 frame x00) <> START_BYTE ->
         exists s' : state,
           main_3cg (start frame uninit) = Some (0, s')
           /\ trace s' = [EvRead 0; EvPrint Msg3InvalidStartByte]
           /\ checksum_calls (trace s') = 0%nat).
Proof.
  apply (bad_sync_rejected_before_checksum
           [xaa; x81; x00; x96; xfe; x00; xe8] uninit).
  - reflexivity.
  - vm_compute. discriminate.
Defined.

(** C5. When the decoder accepts a packet of seven bytes, the structure
    holds: the voltage [(raw[3] << 8) | raw[4]], that is [256 * raw[3] +
    raw[4]]; the error flag, bit 7 of [raw[2]]; the under-voltage flag, bit
    6 of [raw[2]]; the supported flag, the negation of bit 5 of [raw[2]]. *)
Theorem accepted_packet_fields
        (raw : list byte) (d : BatteryStatusData) (s' : state) :
  length raw = 7%nat ->
  process_comchip_status_packet (Z.of_nat (length raw)) (start raw d)
  = Some (true, s') ->
  let status := byte_val (nth 2 raw x00) in
  let hi := byte_val (nth 3 raw x00) in
  let lo := byte_val (nth 4 raw x00) in
  battery_voltage_mV (out_data s') = Z.lor (Z.shiftl hi 8) lo
  /\ battery_voltage_mV (out_data s') = 256 * hi + lo
  /\ has_battery_error (out_data s') = Z.testbit status 7
  /\ is_under_voltage (out_data s') = Z.testbit status 6
  /\ is_battery_supported (out_data s') = negb (Z.testbit status 5).
Proof.
  intros Hlen Hrun. rewrite Hlen in Hrun.
  destruct (length_7_inv raw Hlen) as (b0 & b1 & b2 & b3 & b4 & b5 & b6 & ->).
  cbn [nth]. change (Z.of_nat 7) with 7 in Hrun.
  rewrite process_run_7 in Hrun.
  destruct (negb (byte_val b0 =? COMCHIP_SYNC_BYTE)); [discriminate Hrun|].
  destruct (negb (byte_val b1 =? COMCHIP_CID_GET_STATUS_RESP)); [discriminate Hrun|].
  destruct (negb (checksum_of (byte_val b1) [b2; b3; b4; b5] =? byte_val b6));
    [discriminate Hrun|].
  match type of Hrun with
  | Some (_, ?st) = _ => assert (E : s' = st) by congruence
  end.
  subst s'. clear Hrun.
  cbn [out_data battery_voltage_mV has_battery_error
       is_under_voltage is_battery_supported].
  unfold STATUS_BIT_BATTERY_ERROR, STATUS_BIT_UNDER_VOLTAGE,
    STATUS_BIT_NOT_SUPPORTED.
  rewrite !land_bit_eqb by lia. rewrite !negb_involutive.
  rewrite voltage_value.
  rewrite lor_shiftl_8 by apply byte_val_range.
  repeat split; reflexivity.
Qed.

Lemma accepted_packet_fields_witness :
  let s' := mkState checked_packet (mkBatteryStatusData 38654 false false true)
              [EvRead 0; EvRead 1; EvRead 1; EvChecksum 129 4;
               EvRead 2; EvRead 3; EvRead 4; EvRead 5; EvRead 6;
               EvPrint MsgPacketVerified; EvRead 2; EvRead 3; EvRead 4;
               EvWrite F_battery_voltage_mV; EvWrite F_has_battery_error;
               EvWrite F_is_under_voltage; EvWrite F_is_battery_supported] in
  let status := byte_val (nth 2 checked_packet x00) in
  let hi := byte_val (nth 3 checked_packet x00) in
  let lo := byte_val (nth 4 checked_packet x00) in
  battery_voltage_mV (out_data s') = Z.lor (Z.shiftl hi 8) lo
  /\ battery_voltage_mV (out_data s') = 256 * hi + lo
  /\ has_battery_error (out_data s') = Z.testbit status 7
  /\ is_under_voltage (out_data s') = Z.testbit status 6
  /\ is_battery_supported (out_data s') = negb (Z.testbit status 5).
Proof.
  intros s'.
  apply (accepted_packet_fields checked_packet uninit s').
  - reflexivity.
  - vm_compute. reflexivity.
Defined.

(** The sample [good_packet] of [com3-gm.c] fails the checksum test: the
    routine computes 0xE8 and the packet carries 0x3F. *)
Lemma good_packet_run (d : BatteryStatusData) :
  process_comchip_status_packet 7 (start good_packet d)
  = Some (false,
          mkState good_packet d
            [EvRead 0; EvRead 1; EvRead 1; EvChecksum 0x81 4;
             EvRead 2; EvRead 3; EvRead 4; EvRead 5; EvRead 6;
             EvPrint (ErrChecksumMismatch 0xE8 0x3F)]).
Proof.
  unfold good_packet. rewrite process_run_7. vm_compute. reflexivity.
Qed.

(** With [packet_len] equal to 7 and a packet of six bytes the read of
    element 6 has no defined result: the length test is what keeps the
    reads inside the packet. *)
Lemma short_packet_with_length_7 :
  process_comchip_status_packet 7 (start short_packet uninit) = None.
Proof. vm_compute. reflexivity. Qed.

(** The last two calls of [main] in [com3-gm.c]. *)
Lemma bad_checksum_packet_run (d : BatteryStatusData) :
  process_comchip_status_packet 7 (start bad_checksum_packet d)
  = Some (false,
          mkState bad_checksum_packet d
            [EvRead 0; EvRead 1; EvRead 1; EvChecksum 0x81 4;
             EvRead 2; EvRead 3; EvRead 4; EvRead 5; EvRead 6;
             EvPrint (ErrChecksumMismatch 0xE8 0x11)]).
Proof.
  unfold bad_checksum_packet. rewrite process_run_7. vm_compute. reflexivity.
Qed.

Lemma short_packet_run (d : BatteryStatusData) :
  process_comchip_status_packet 6 (start short_packet d)
  = Some (false,
          mkState short_packet d
            [EvPrint (ErrInvalidFrameSize 7 6)]).
Proof. reflexivity. Qed.

(** The other accepted sample of [main], [undervoltage_packet], fails the
    same test: computed 0xA8, carried 0xFF. *)
Lemma undervoltage_packet_run (d : BatteryStatusData) :
  process_comchip_status_packet 7 (start undervoltage_packet d)
  = Some (false,
          mkState undervoltage_packet d
            [EvRead 0; EvRead 1; EvRead 1; EvChecksum 0x81 4;
             EvRead 2; EvRead 3; EvRead 4; EvRead 5; EvRead 6;
             EvPrint (ErrChecksumMismatch 0xA8 0xFF)]).
Proof.
  unfold undervoltage_packet. rewrite process_run_7. vm_compute. reflexivity.
Qed.

(** Decoding [good_packet] does not succeed with the voltage 38654. *)
Lemma good_packet_is_rejected :
  ~ (exists s' : state,
        process_comchip_status_packet 7 (start good_packet uninit)
        = Some (true, s')
        /\ out_data s' = mkBatteryStatusData 38654 false false true).
Proof.
  intros (s' & H & _). rewrite good_packet_run in H. discriminate H.
Qed.

Lemma checked_packet_run (d : BatteryStatusData) :
  process_comchip_status_packet 7 (start checked_packet d)
  = Some (true,
          mkState checked_packet (mkBatteryStatusData 38654 false false true)
            [EvRead 0; EvRead 1; EvRead 1; EvChecksum 0x81 4;
             EvRead 2; EvRead 3; EvRead 4; EvRead 5; EvRead 6;
             EvPrint MsgPacketVerified; EvRead 2; EvRead 3; EvRead 4;
             EvWrite F_battery_voltage_mV; EvWrite F_has_battery_error;
             EvWrite F_is_under_voltage; EvWrite F_is_battery_supported]).
Proof.
  unfold checked_packet. rewrite process_run_7. vm_compute. reflexivity.
Qed.

(** C4 (as the code has it).  The bytes 0x55, 0x81, 0x00, 0x96, 0xFE, 0x00
    followed by 0x3F are rejected with a checksum mismatch (computed 0xE8,
    received 0x3F) and the structure is left as it was; followed by the
    checksum 0xE8 of the algorithm they decode with voltage 38654 (0x96FE),
    no error, no under-voltage, battery supported, whatever the structure
    held before. *)
Theorem sample_packet_decoding (d : BatteryStatusData) :
  (exists s' : state,
      process_comchip_status_packet 7 (start good_packet d) = Some (false, s')
      /\ errors_of (trace s') = [ErrChecksumMismatch 0xE8 0x3F]
      /\ writes_of (trace s') = []
      /\ out_data s' = d)
  /\ (exists s' : state,
         process_comchip_status_packet 7 (start checked_packet d)
         = Some (true, s')
         /\ errors_of (trace s') = []
         /\ battery_voltage_mV (out_data s') = 38654
         /\ has_battery_error (out_data s') = false
         /\ is_under_voltage (out_data s') = false
         /\ is_battery_supported (out_data s') = true).
Proof.
  split.
  - eexists. split; [apply good_packet_run|]. cbn. repeat split; reflexivity.
  - eexists. split; [apply checked_packet_run|]. cbn. repeat split; reflexivity.
Qed.

(** C2. On every packet, called with the packet's length, the decoder
    returns, leaves the packet as it was, and either

    - returns [true] having assigned each of the four fields of the
      structure once and printed no error, and then the packet has seven
      bytes, starts with 0x55 and 0x81, and its last byte is the checksum of
      bytes 2 to 5 seeded with byte 1; or
    - returns [false] having printed exactly one error, with no assignment
      through [out_data]: the structure is what it was before the call. *)
Theorem decode_all_or_nothing (raw : list byte) (d : BatteryStatusData) :
  exists (r : bool) (s' : state),
    process_comchip_status_packet (Z.of_nat (length raw)) (start raw d)
    = Some (r, s')
    /\ packet s' = raw
    /\ ((r = true
         /\ writes_of (trace s')
            = [F_battery_voltage_mV; F_has_battery_error;
               F_is_under_voltage; F_is_battery_supported]
         /\ errors_of (trace s') = []
         /\ Z.of_nat (length raw) = COMCHIP_STATUS_FRAME_LEN
         /\ byte_val (nth 0 raw x00) = COMCHIP_SYNC_BYTE
         /\ byte_val (nth 1 raw x00) = COMCHIP_CID_GET_STATUS_RESP
         /\ checksum_of (byte_val (nth 1 raw x00)) (firstn 4 (skipn 2 raw))
            = byte_val (nth 6 raw x00))
        \/ (r = false
            /\ out_data s' = d
            /\ writes_of (trace s') = []
            /\ exists e : message, errors_of (trace s') = [e])).
Proof.
  destruct (Nat.eq_dec (length raw) 7) as [Hlen|Hlen].
  - rewrite Hlen.
    destruct (length_7_inv raw Hlen) as (b0 & b1 & b2 & b3 & b4 & b5 & b6 & ->).
    change (Z.of_nat 7) with 7. rewrite process_run_7.
    cbn [nth firstn skipn].
    destruct (byte_val b0 =? COMCHIP_SYNC_BYTE) eqn:E0; cbn [negb].
    2:{ eexists. eexists. split; [reflexivity|]. split; [reflexivity|].
        right. cbn. repeat split. eexists. reflexivity. }
    destruct (byte_val b1 =? COMCHIP_CID_GET_STATUS_RESP) eqn:E1; cbn [negb].
    2:{ eexists. eexists. split; [reflexivity|]. split; [reflexivity|].
        right. cbn. repeat split. eexists. reflexivity. }
    destruct (checksum_of (byte_val b1) [b2; b3; b4; b5] =? byte_val b6) eqn:E2;
      cbn [negb].
    2:{ eexists. eexists. split; [reflexivity|]. split; [reflexivity|].
        right. cbn. repeat split. eexists. reflexivity. }
    apply Z.eqb_eq in E0, E1, E2.
    eexists. eexists. split; [reflexivity|]. split; [reflexivity|].
    left. cbn [trace app writes_of errors_of is_error].
    repeat split; assumption.
  - assert (H : Z.of_nat (length raw) <> COMCHIP_STATUS_FRAME_LEN)
      by (unfold COMCHIP_STATUS_FRAME_LEN; lia).
    rewrite (process_run_bad_length _ (start raw d) H).
    eexists. eexists. split; [reflexivity|]. split; [reflexivity|].
    right. cbn. repeat split. eexists. reflexivity.
Qed.

(** C10. On a packet of seven bytes the decoder returns, so no read fell
    outside the packet, and every index it read is between 0 and 6; an
    accepted packet is read at 0 (sync), 1 (command id, for the test and as
    the seed), 2 to 5 (checksum slice), 6 (received checksum) and 2, 3, 4
    (status and voltage). *)
Theorem decoder_reads_in_bounds (raw : list byte) (d : BatteryStatusData) :
  length raw = 7%nat ->
  exists (r : bool) (s' : state),
    process_comchip_status_packet (Z.of_nat (length raw)) (start raw d)
    = Some (r, s')
    /\ Forall (fun i => 0 <= i <= 6) (reads_of (trace s'))
    /\ (r = true -> reads_of (trace s') = [0; 1; 1; 2; 3; 4; 5; 6; 2; 3; 4]).
Proof.
  intros Hlen. rewrite Hlen.
  destruct (length_7_inv raw Hlen) as (b0 & b1 & b2 & b3 & b4 & b5 & b6 & ->).
  change (Z.of_nat 7) with 7. rewrite process_run_7.
  destruct (negb (byte_val b0 =? COMCHIP_SYNC_BYTE));
    [|destruct (negb (byte_val b1 =? COMCHIP_CID_GET_STATUS_RESP));
      [|destruct (negb (checksum_of (byte_val b1) [b2; b3; b4; b5]
                        =? byte_val b6))]];
    (eexists; eexists; split; [reflexivity|]; cbn; split;
     [repeat constructor; lia | intros; try discriminate; reflexivity]).
Qed.

Lemma decoder_reads_in_bounds_witness :
  exists (r : bool) (s' : state),
    process_comchip_status_packet (Z.of_nat (length good_packet))
      (start good_packet uninit)
    = Some (r, s')
    /\ Forall (fun i => 0 <= i <= 6) (reads_of (trace s'))
    /\ (r = true -> reads_of (trace s') = [0; 1; 1; 2; 3; 4; 5; 6; 2; 3; 4]).
Proof.
  apply (decoder_reads_in_bounds good_packet uninit). reflexivity.
Defined.

(** * Further properties of the checksum *)

Lemma sum_bytes_nonneg (data : list byte) : 0 <= sum_bytes data.
Proof.
  induction data as [|b data IH]; simpl; [lia|].
  pose proof (byte_val_range b). lia.
Qed.

Lemma sum_bytes_app (l1 l2 : list byte) :
  sum_bytes (l1 ++ l2) = sum_bytes l1 + sum_bytes l2.
Proof.
  induction l1 as [|b l1 IH]; simpl; [reflexivity|]. rewrite IH. lia.
Qed.

Lemma sum_bytes_perm (l1 l2 : list byte) :
  Permutation l1 l2 -> sum_bytes l1 = sum_bytes l2.
Proof.
  induction 1; simpl; lia.
Qed.

Lemma reduce255_small (t : Z) : 0 <= t < 256 -> reduce255 t = t.
Proof.
  intros H. unfold reduce255.
  destruct (Z.eqb_spec t 0) as [->|Hne]; [reflexivity|].
  destruct (Z.eq_dec t 255) as [->|Hn]; [reflexivity|].
  rewrite Z.mod_small by lia. lia.
Qed.

Lemma reduce255_range (t : Z) :
  0 <= t -> 0 <= reduce255 t < 256 /\ (0 < t -> 1 <= reduce255 t).
Proof.
  intros H. unfold reduce255.
  destruct (Z.eqb_spec t 0) as [->|Hne]; [lia|].
  pose proof (Z.mod_pos_bound (t - 1) 255 ltac:(lia)). lia.
Qed.

(** One iteration of the loop adds the byte modulo 255. *)
Lemma checksum_step_reduce (t b : Z) :
  0 <= t -> 0 <= b < 256 ->
  checksum_step (reduce255 t) b = reduce255 (t + b).
Proof.
  intros Ht Hb.
  destruct (reduce255_range t Ht) as [Hr Hr1].
  destruct (checksum_step_small (reduce255 t) b Hr Hb) as [-> _].
  unfold reduce255 in *.
  destruct (Z.eqb_spec t 0) as [->|Hne].
  - rewrite Z.add_0_l.
    destruct (Z.eqb_spec b 0) as [->|Hb0]; [reflexivity|].
    destruct (Z.leb_spec 256 b); [lia|].
    destruct (Z.eq_dec b 255) as [->|Hn]; [reflexivity|].
    rewrite Z.mod_small by lia. lia.
  - destruct (Z.eqb_spec (t + b) 0); [lia|].
    destruct (Z.leb_spec 256 ((t - 1) mod 255 + 1 + b));
      Z.div_mod_to_equations; lia.
Qed.

Lemma fold_checksum_step_closed (data : list byte) :
  forall t : Z,
    0 <= t ->
    fold_left checksum_step (map byte_val data) (reduce255 t)
    = reduce255 (t + sum_bytes data).
Proof.
  induction data as [|b data IH]; intros t Ht; simpl.
  - rewrite Z.add_0_r. reflexivity.
  - pose proof (byte_val_range b) as Hb.
    rewrite checksum_step_reduce by assumption.
    rewrite IH by lia. f_equal. lia.
Qed.

Lemma checksum_of_closed (cid : Z) (data : list byte) :
  0 <= cid < 256 ->
  checksum_of cid data = 255 - reduce255 (cid + sum_bytes data).
Proof.
  intros Hc. unfold checksum_of.
  rewrite <- (reduce255_small cid Hc) at 1.
  rewrite fold_checksum_step_closed by lia.
  apply checksum_final_small.
  apply reduce255_range. pose proof (sum_bytes_nonneg data). lia.
Qed.

(** The value returned by a call on [data] held in the packet. *)
Lemma calculate_checksum_result (cid : Z) (pre data post : list byte) (s : state) :
  packet s = pre ++ data ++ post ->
  (length data <= 255)%nat ->
  result (calculate_checksum cid (Z.of_nat (length pre))
            (Z.of_nat (length data)) s)
  = Some (checksum_of cid data).
Proof.
  intros Hp Hl.
  rewrite (calculate_checksum_run cid pre data post s Hp Hl). reflexivity.
Qed.

(** The loop has no bounds test: when the [n] bytes from [data_buffer + i]
    do not all lie in the packet, it runs into a read outside it. *)
Lemma checksum_loop_out_of_bounds (n : nat) :
  forall (data_buffer i tmp : Z) (s : state),
    (0 < n)%nat ->
    0 <= i -> i + Z.of_nat n <= 255 -> 0 <= data_buffer ->
    Z.of_nat (length (packet s)) < data_buffer + i + Z.of_nat n ->
    checksum_loop n data_buffer i tmp s = None.
Proof.
  induction n as [|n IH]; intros p i tmp s Hpos Hi Hn Hp Hlen.
  - lia.
  - cbn [checksum_loop].
    destruct (Z.ltb_spec (p + i) (Z.of_nat (length (packet s)))) as [Hin|Hout].
    + assert (Hr : 0 <= p + i < Z.of_nat (length (packet s))) by lia.
      rewrite (bind_run _ _ _ _ _ (load_run _ _ Hr)).
      rewrite to_uint8_small by lia.
      apply IH; cbn [packet]; lia.
    + unfold bind. rewrite load_out_of_bounds by lia. reflexivity.
Qed.

(** X1. With [len = 0] the routine reads nothing, whatever its pointer, and
    returns the complement of the command id, [255 - cid]. *)
Theorem checksum_of_no_bytes (cid : byte) (data_buffer : Z) (s : state) :
  calculate_checksum (byte_val cid) data_buffer 0 s
  = Some (255 - byte_val cid,
          mkState (packet s) (out_data s)
            (trace s ++ [EvChecksum (byte_val cid) 0])).
Proof.
  unfold calculate_checksum. rewrite bind_emit.
  cbn [Z.to_nat checksum_loop]. unfold bind, ret.
  rewrite checksum_final_small by apply byte_val_range. reflexivity.
Qed.

(** X2. The routine trusts [len]: when the [len] bytes from its pointer do
    not all lie inside the packet, the run reaches a read outside the packet
    and has no defined result. *)
Theorem checksum_reads_past_short_buffer
        (cid : byte) (data_buffer len : Z) (s : state) :
  0 <= data_buffer ->
  1 <= len <= 255 ->
  Z.of_nat (length (packet s)) < data_buffer + len ->
  calculate_checksum (byte_val cid) data_buffer len s = None.
Proof.
  intros Hp Hl Hlen. unfold calculate_checksum. rewrite bind_emit.
  unfold bind at 1.
  rewrite checksum_loop_out_of_bounds; [reflexivity|lia|lia|lia|lia|].
  cbn [packet]. lia.
Qed.

Lemma checksum_reads_past_short_buffer_witness :
  calculate_checksum (byte_val x81) 2 4 (start [x55; x81; x00; x96] uninit)
  = None.
Proof.
  apply (checksum_reads_past_short_buffer x81 2 4
           (start [x55; x81; x00; x96] uninit)).
  - lia.
  - lia.
  - simpl. lia.
Defined.

(** X3. The checksum is the complement of the sum of the command id and the
    data bytes reduced modulo 255 into 1..255 (0 only for a zero sum); for a
    non-zero command id it is [254 - (cid + sum - 1) mod 255]. *)
Theorem checksum_is_sum_modulo_255
        (cid : byte) (pre data post : list byte) (s : state) :
  packet s = pre ++ data ++ post ->
  (length data <= 255)%nat ->
  let call := calculate_checksum (byte_val cid) (Z.of_nat (length pre))
                (Z.of_nat (length data)) s in
  result call = Some (255 - reduce255 (byte_val cid + sum_bytes data))
  /\ (byte_val cid <> 0 ->
      result call
      = Some (254 - (byte_val cid + sum_bytes data - 1) mod 255)).
Proof.
  intros Hp Hl call. subst call.
  rewrite (calculate_checksum_result _ pre data post s Hp Hl).
  rewrite checksum_of_closed by apply byte_val_range.
  split; [reflexivity|].
  intros Hc. f_equal. unfold reduce255.
  pose proof (byte_val_range cid). pose proof (sum_bytes_nonneg data).
  destruct (Z.eqb_spec (byte_val cid + sum_bytes data) 0); lia.
Qed.

Lemma checksum_is_sum_modulo_255_witness :
  let call := calculate_checksum (byte_val x81) 2 4 (start good_packet uninit) in
  result call
  = Some (255 - reduce255 (byte_val x81 + sum_bytes [x00; x96; xfe; x00]))
  /\ (byte_val x81 <> 0 ->
      result call
      = Some (254 - (byte_val x81 + sum_bytes [x00; x96; xfe; x00] - 1) mod 255)).
Proof.
  apply (checksum_is_sum_modulo_255 x81 [x55; x81] [x00; x96; xfe; x00] [x3f]
           (start good_packet uninit)).
  - reflexivity.
  - simpl. lia.
Defined.

(** X4. The checksum does not depend on the order of the data bytes: two
    calls with the same command id on data that are permutations of each
    other return the same value. *)
Theorem checksum_ignores_byte_order
        (cid : byte) (data1 data2 pre1 post1 pre2 post2 : list byte)
        (s1 s2 : state) :
  packet s1 = pre1 ++ data1 ++ post1 ->
  packet s2 = pre2 ++ data2 ++ post2 ->
  (length data1 <= 255)%nat ->
  Permutation data1 data2 ->
  exists v : Z,
    result (calculate_checksum (byte_val cid) (Z.of_nat (length pre1))
              (Z.of_nat (length data1)) s1) = Some v
    /\ result (calculate_checksum (byte_val cid) (Z.of_nat (length pre2))
                 (Z.of_nat (length data2)) s2) = Some v.
Proof.
  intros H1 H2 Hl HP.
  assert (Hl2 : (length data2 <= 255)%nat)
    by (rewrite <- (Permutation_length HP); exact Hl).
  rewrite (calculate_checksum_result _ pre1 data1 post1 s1 H1 Hl).
  rewrite (calculate_checksum_result _ pre2 data2 post2 s2 H2 Hl2).
  rewrite !checksum_of_closed by apply byte_val_range.
  rewrite (sum_bytes_perm data1 data2 HP).
  eexists. split; reflexivity.
Qed.

Lemma checksum_ignores_byte_order_witness :
  exists v : Z,
    result (calculate_checksum (byte_val x81) 2 4
              (start [x55; x81; x00; x96; xfe; x00; xe8] uninit)) = Some v
    /\ result (calculate_checksum (byte_val x81) 2 4
                 (start [x55; x81; x00; xfe; x96; x00; xe8] uninit)) = Some v.
Proof.
  apply (checksum_ignores_byte_order x81
           [x00; x96; xfe; x00] [x00; xfe; x96; x00]
           [x55; x81] [xe8] [x55; x81] [xe8]
           (start [x55; x81; x00; x96; xfe; x00; xe8] uninit)
           (start [x55; x81; x00; xfe; x96; x00; xe8] uninit)).
  - reflexivity.
  - reflexivity.
  - simpl. lia.
  - apply perm_skip. apply perm_swap.
Defined.

(** X5. Bytes of value 0 do not count: data with a 0x00 inserted anywhere
    has the checksum of the data without it. *)
Theorem checksum_ignores_zero_bytes
        (cid : byte) (a b pre1 post1 pre2 post2 : list byte) (s1 s2 : state) :
  packet s1 = pre1 ++ (a ++ b) ++ post1 ->
  packet s2 = pre2 ++ (a ++ x00 :: b) ++ post2 ->
  (length (a ++ x00 :: b) <= 255)%nat ->
  exists v : Z,
    result (calculate_checksum (byte_val cid) (Z.of_nat (length pre1))
              (Z.of_nat (length (a ++ b))) s1) = Some v
    /\ result (calculate_checksum (byte_val cid) (Z.of_nat (length pre2))
                 (Z.of_nat (length (a ++ x00 :: b))) s2) = Some v.
Proof.
  intros H1 H2 Hl.
  assert (Hl1 : (length (a ++ b) <= 255)%nat)
    by (rewrite length_app in *; simpl in Hl; lia).
  rewrite (calculate_checksum_result _ pre1 (a ++ b) post1 s1 H1 Hl1).
  rewrite (calculate_checksum_result _ pre2 (a ++ x00 :: b) post2 s2 H2 Hl).
  rewrite !checksum_of_closed by apply byte_val_range.
  assert (E : sum_bytes (a ++ x00 :: b) = sum_bytes (a ++ b)).
  { rewrite !sum_bytes_app. cbn [sum_bytes fold_right].
    change (byte_val x00) with 0. fold (sum_bytes b). lia. }
  rewrite E. eexists. split; reflexivity.
Qed.

Lemma checksum_ignores_zero_bytes_witness :
  exists v : Z,
    result (calculate_checksum (byte_val x81) 2 3
              (start [x55; x81; x00; x96; xfe; xe8] uninit)) = Some v
    /\ result (calculate_checksum (byte_val x81) 2 4
                 (start [x55; x81; x00; x96; xfe; x00; xe8] uninit)) = Some v.
Proof.
  apply (checksum_ignores_zero_bytes x81 [x00; x96; xfe] []
           [x55; x81] [xe8] [x55; x81] [xe8]
           (start [x55; x81; x00; x96; xfe; xe8] uninit)
           (start [x55; x81; x00; x96; xfe; x00; xe8] uninit)).
  - reflexivity.
  - reflexivity.
  - simpl. lia.
Defined.

(** X6. With a non-zero command id, a data byte 0x00 and a data byte 0xFF
    are not told apart: replacing one by the other leaves the checksum as
    it was. *)
Theorem checksum_confuses_00_and_ff
        (cid : byte) (a b pre1 post1 pre2 post2 : list byte) (s1 s2 : state) :
  byte_val cid <> 0 ->
  packet s1 = pre1 ++ (a ++ x00 :: b) ++ post1 ->
  packet s2 = pre2 ++ (a ++ xff :: b) ++ post2 ->
  (length (a ++ x00 :: b) <= 255)%nat ->
  exists v : Z,
    result (calculate_checksum (byte_val cid) (Z.of_nat (length pre1))
              (Z.of_nat (length (a ++ x00 :: b))) s1) = Some v
    /\ result (calculate_checksum (byte_val cid) (Z.of_nat (length pre2))
                 (Z.of_nat (length (a ++ xff :: b))) s2) = Some v.
Proof.
  intros Hc H1 H2 Hl.
  assert (Hl2 : (length (a ++ xff :: b) <= 255)%nat)
    by (rewrite length_app in *; simpl in *; lia).
  rewrite (calculate_checksum_result _ pre1 _ post1 s1 H1 Hl).
  rewrite (calculate_checksum_result _ pre2 _ post2 s2 H2 Hl2).
  rewrite !checksum_of_closed by apply byte_val_range.
  assert (E : sum_bytes (a ++ xff :: b) = sum_bytes (a ++ x00 :: b) + 255).
  { rewrite !sum_bytes_app. cbn [sum_bytes fold_right].
    change (byte_val x00) with 0. change (byte_val xff) with 255.
    fold (sum_bytes b). lia. }
  rewrite E.
  pose proof (byte_val_range cid). pose proof (sum_bytes_nonneg (a ++ x00 :: b)).
  exists (255 - reduce255 (byte_val cid + sum_bytes (a ++ x00 :: b))).
  split; [reflexivity|]. do 2 f_equal. unfold reduce255.
  destruct (Z.eqb_spec (byte_val cid + (sum_bytes (a ++ x00 :: b) + 255)) 0);
    [lia|].
  destruct (Z.eqb_spec (byte_val cid + sum_bytes (a ++ x00 :: b)) 0); [lia|].
  Z.div_mod_to_equations. lia.
Qed.

Lemma checksum_confuses_00_and_ff_witness :
  exists v : Z,
    result (calculate_checksum (byte_val x81) 2 4
              (start [x55; x81; x00; x96; xfe; x00; xe8] uninit)) = Some v
    /\ result (calculate_checksum (byte_val x81) 2 4
                 (start [x55; x81; x00; x96; xfe; xff; xe8] uninit)) = Some v.
Proof.
  apply (checksum_confuses_00_and_ff x81 [x00; x96; xfe] []
           [x55; x81] [xe8] [x55; x81] [xe8]
           (start [x55; x81; x00; x96; xfe; x00; xe8] uninit)
           (start [x55; x81; x00; x96; xfe; xff; xe8] uninit)).
  - vm_compute. discriminate.
  - reflexivity.
  - reflexivity.
  - simpl. lia.
Defined.

(** X7. Any other change of one data byte changes the checksum: if [x] and
    [y] differ and are not the pair 0x00, 0xFF, data that differ only by [x]
    against [y] at one place have different checksums. *)
Theorem checksum_detects_one_changed_byte
        (cid x y : byte) (a b pre1 post1 pre2 post2 : list byte)
        (s1 s2 : state) :
  byte_val x <> byte_val y ->
  ~ (byte_val x = 0 /\ byte_val y = 255) ->
  ~ (byte_val x = 255 /\ byte_val y = 0) ->
  packet s1 = pre1 ++ (a ++ x :: b) ++ post1 ->
  packet s2 = pre2 ++ (a ++ y :: b) ++ post2 ->
  (length (a ++ x :: b) <= 255)%nat ->
  exists v1 v2 : Z,
    result (calculate_checksum (byte_val cid) (Z.of_nat (length pre1))
              (Z.of_nat (length (a ++ x :: b))) s1) = Some v1
    /\ result (calculate_checksum (byte_val cid) (Z.of_nat (length pre2))
                 (Z.of_nat (length (a ++ y :: b))) s2) = Some v2
    /\ v1 <> v2.
Proof.
  intros Hxy H0 H255 H1 H2 Hl.
  assert (Hl2 : (length (a ++ y :: b) <= 255)%nat)
    by (rewrite length_app in *; simpl in *; lia).
  rewrite (calculate_checksum_result _ pre1 _ post1 s1 H1 Hl).
  rewrite (calculate_checksum_result _ pre2 _ post2 s2 H2 Hl2).
  rewrite !checksum_of_closed by apply byte_val_range.
  eexists. eexists. split; [reflexivity|]. split; [reflexivity|].
  rewrite !sum_bytes_app. cbn [sum_bytes fold_right]. fold (sum_bytes b).
  pose proof (byte_val_range cid). pose proof (byte_val_range x).
  pose proof (byte_val_range y).
  pose proof (sum_bytes_nonneg a). pose proof (sum_bytes_nonneg b).
  unfold reduce255.
  destruct (Z.eqb_spec (byte_val cid + (sum_bytes a + (byte_val x + sum_bytes b))) 0);
    destruct (Z.eqb_spec (byte_val cid + (sum_bytes a + (byte_val y + sum_bytes b))) 0);
    Z.div_mod_to_equations; lia.
Qed.

Lemma checksum_detects_one_changed_byte_witness :
  exists v1 v2 : Z,
    result (calculate_checksum (byte_val x81) 2 4
              (start [x55; x81; x00; x96; xfe; x00; xe8] uninit)) = Some v1
    /\ result (calculate_checksum (byte_val x81) 2 4
                 (start [x55; x81; x00; x97; xfe; x00; xe8] uninit)) = Some v2
    /\ v1 <> v2.
Proof.
  apply (checksum_detects_one_changed_byte x81 x96 x97 [x00] [xfe; x00]
           [x55; x81] [xe8] [x55; x81] [xe8]
           (start [x55; x81; x00; x96; xfe; x00; xe8] uninit)
           (start [x55; x81; x00; x97; xfe; x00; xe8] uninit)).
  - vm_compute. discriminate.
  - vm_compute. intros [H _]. discriminate H.
  - vm_compute. intros [H _]. discriminate H.
  - reflexivity.
  - reflexivity.
  - simpl. lia.
Defined.

(** X8. With a non-zero command id the checksum is between 0 and 254: the
    routine never returns 0xFF. *)
Theorem checksum_is_never_0xFF
        (cid : byte) (pre data post : list byte) (s : state) :
  byte_val cid <> 0 ->
  packet s = pre ++ data ++ post ->
  (length data <= 255)%nat ->
  exists v : Z,
    result (calculate_checksum (byte_val cid) (Z.of_nat (length pre))
              (Z.of_nat (length data)) s) = Some v
    /\ 0 <= v <= 254.
Proof.
  intros Hc Hp Hl.
  rewrite (calculate_checksum_result _ pre data post s Hp Hl).
  rewrite checksum_of_closed by apply byte_val_range.
  eexists. split; [reflexivity|].
  pose proof (byte_val_range cid). pose proof (sum_bytes_nonneg data).
  destruct (reduce255_range (byte_val cid + sum_bytes data)) as [Hr Hr1]; lia.
Qed.

Lemma checksum_is_never_0xFF_witness :
  exists v : Z,
    result (calculate_checksum (byte_val x81) 2 4
              (start undervoltage_packet uninit)) = Some v
    /\ 0 <= v <= 254.
Proof.
  apply (checksum_is_never_0xFF x81 [x55; x81] [x40; x96; xfe; x00] [xff]
           (start undervoltage_packet uninit)).
  - vm_compute. discriminate.
  - reflexivity.
  - simpl. lia.
Defined.

(** X9. [ODM_com_checksum_calc] of [com3-cg.c] and [calculate_checksum] of
    the other two files are interchangeable: for all arguments and every
    state they read the same elements and end alike, with the same value or
    with the same failure. *)
Theorem ODM_routine_is_calculate_checksum (CID p_data len : Z) (s : state) :
  ODM_com_checksum_calc CID p_data len s = calculate_checksum CID p_data len s.
Proof. apply ODM_com_checksum_calc_eq. Qed.

(** * Further properties of the decoder *)

(** The run on a packet that holds more than seven bytes: the bytes after
    the seventh are not looked at. *)
Lemma process_run_7_tail
      (b0 b1 b2 b3 b4 b5 b6 : byte) (rest : list byte) (d : BatteryStatusData) :
  let raw := [b0; b1; b2; b3; b4; b5; b6] ++ rest in
  let hdr := [EvRead 0; EvRead 1; EvRead 1; EvChecksum (byte_val b1) 4;
              EvRead 2; EvRead 3; EvRead 4; EvRead 5; EvRead 6] in
  process_comchip_status_packet 7 (start raw d)
  = if negb (byte_val b0 =? COMCHIP_SYNC_BYTE) then
      Some (false, mkState raw d
              [EvRead 0; EvRead 0;
               EvPrint (ErrInvalidSync COMCHIP_SYNC_BYTE (byte_val b0))])
    else if negb (byte_val b1 =? COMCHIP_CID_GET_STATUS_RESP) then
      Some (false, mkState raw d
              [EvRead 0; EvRead 1; EvRead 1;
               EvPrint (ErrInvalidCID COMCHIP_CID_GET_STATUS_RESP (byte_val b1))])
    else if negb (checksum_of (byte_val b1) [b2; b3; b4; b5] =? byte_val b6) then
      Some (false, mkState raw d
              (hdr ++ [EvPrint (ErrChecksumMismatch
                                  (checksum_of (byte_val b1) [b2; b3; b4; b5])
                                  (byte_val b6))]))
    else
      Some (true, mkState raw
              (mkBatteryStatusData
                 (to_uint16 (Z.lor (to_uint16 (Z.shiftl (byte_val b3) 8)) (byte_val b4)))
                 (negb (Z.land (byte_val b2) STATUS_BIT_BATTERY_ERROR =? 0))
                 (negb (Z.land (byte_val b2) STATUS_BIT_UNDER_VOLTAGE =? 0))
                 (Z.land (byte_val b2) STATUS_BIT_NOT_SUPPORTED =? 0))
              (hdr ++ [EvPrint MsgPacketVerified; EvRead 2; EvRead 3; EvRead 4;
                       EvWrite F_battery_voltage_mV; EvWrite F_has_battery_error;
                       EvWrite F_is_under_voltage; EvWrite F_is_battery_supported])).
Proof.
  intros raw hdr. subst raw hdr. cbn [app].
  unfold process_comchip_status_packet, start.
  change (negb (7 =? COMCHIP_STATUS_FRAME_LEN)) with false. cbv iota.
  run_step. rewrite if_run.
  destruct (negb (byte_val b0 =? COMCHIP_SYNC_BYTE)).
  { do 2 run_step. reflexivity. }
  run_step. rewrite if_run.
  destruct (negb (byte_val b1 =? COMCHIP_CID_GET_STATUS_RESP)).
  { do 2 run_step. reflexivity. }
  run_step.
  change (COMCHIP_STATUS_FRAME_LEN - 3) with (Z.of_nat (length [b2; b3; b4; b5])).
  change 2 with (Z.of_nat (length [b0; b1])) at 1.
  assert (Hlen : (length [b2; b3; b4; b5] <= 255)%nat) by (simpl; lia).
  lazymatch goal with
  | |- context [bind (calculate_checksum ?c _ _) ?k ?s] =>
      rewrite (bind_run _ k s _ _
                 (calculate_checksum_run c [b0; b1] [b2; b3; b4; b5]
                    (b6 :: rest) s eq_refl Hlen))
  end.
  cbn [packet out_data trace app length].
  change (7 - 1) with 6.
  run_step. rewrite if_run. fold (checksum_of (byte_val b1) [b2; b3; b4; b5]).
  destruct (negb (checksum_of (byte_val b1) [b2; b3; b4; b5] =? byte_val b6)).
  { run_step. reflexivity. }
  run_step. run_step. run_step. run_step.
  unfold store_battery_voltage_mV, store_has_battery_error,
    store_is_under_voltage, store_is_battery_supported.
  do 4 run_step.
  reflexivity.
Qed.

(** The checksum of the four data bytes of a status frame. *)
Lemma checksum_of_status_frame (b2 b3 b4 b5 : byte) :
  checksum_of COMCHIP_CID_GET_STATUS_RESP [b2; b3; b4; b5]
  = 254 - (128 + byte_val b2 + byte_val b3 + byte_val b4 + byte_val b5) mod 255.
Proof.
  rewrite checksum_of_closed by (unfold COMCHIP_CID_GET_STATUS_RESP; lia).
  cbn [sum_bytes fold_right]. unfold reduce255, COMCHIP_CID_GET_STATUS_RESP.
  pose proof (byte_val_range b2). pose proof (byte_val_range b3).
  pose proof (byte_val_range b4). pose proof (byte_val_range b5).
  destruct (Z.eqb_spec
              (129 + (byte_val b2 + (byte_val b3 + (byte_val b4 + (byte_val b5 + 0)))))
              0); [lia|].
  replace (129 + (byte_val b2 + (byte_val b3 + (byte_val b4 + (byte_val b5 + 0)))) - 1)
    with (128 + byte_val b2 + byte_val b3 + byte_val b4 + byte_val b5) by lia.
  lia.
Qed.

(** Acceptance of seven bytes, as three equations. *)
Lemma process_accepts_7
      (b0 b1 b2 b3 b4 b5 b6 : byte) (d : BatteryStatusData) :
  (exists s' : state,
      process_comchip_status_packet 7 (start [b0; b1; b2; b3; b4; b5; b6] d)
      = Some (true, s'))
  <-> (byte_val b0 = COMCHIP_SYNC_BYTE
       /\ byte_val b1 = COMCHIP_CID_GET_STATUS_RESP
       /\ byte_val b6
          = 254 - (128 + byte_val b2 + byte_val b3 + byte_val b4 + byte_val b5)
                  mod 255).
Proof.
  rewrite process_run_7.
  destruct (Z.eqb_spec (byte_val b0) COMCHIP_SYNC_BYTE) as [E0|E0]; cbn [negb].
  2:{ split; [intros (s' & H); discriminate H | intros (H & _); contradiction]. }
  destruct (Z.eqb_spec (byte_val b1) COMCHIP_CID_GET_STATUS_RESP) as [E1|E1];
    cbn [negb].
  2:{ split; [intros (s' & H); discriminate H | intros (_ & H & _); contradiction]. }
  rewrite E1, checksum_of_status_frame.
  destruct (Z.eqb_spec
              (254 - (128 + byte_val b2 + byte_val b3 + byte_val b4 + byte_val b5)
                     mod 255)
              (byte_val b6)) as [E2|E2]; cbn [negb].
  - split; [intros _; repeat split; auto | intros _; eexists; reflexivity].
  - split; [intros (s' & H); discriminate H | intros (_ & _ & H); lia].
Qed.

Lemma byte_val_inj (x y : byte) : byte_val x = byte_val y -> x = y.
Proof.
  unfold byte_val. intros H. apply N2Z.inj in H.
  pose proof (Byte.of_to_N x) as Hx. rewrite H, Byte.of_to_N in Hx.
  congruence.
Qed.

Lemma byte_of_value (v : Z) : 0 <= v < 256 -> exists c : byte, byte_val c = v.
Proof.
  intros Hv. destruct (Byte.of_N (Z.to_N v)) as [c|] eqn:E.
  - exists c. unfold byte_val. apply Byte.to_of_N in E. rewrite E. lia.
  - apply Byte.of_N_None_iff in E. lia.
Qed.

(** Inversion of the monad's operations. *)
Lemma bind_Some_inv {A B} (m : M A) (k : A -> M B) (s s' : state) (b : B) :
  bind m k s = Some (b, s') ->
  exists (a : A) (s1 : state), m s = Some (a, s1) /\ k a s1 = Some (b, s').
Proof.
  unfold bind. destruct (m s) as [[a s1]|]; [|discriminate].
  intros H. exists a, s1. split; [reflexivity|exact H].
Qed.

Lemma load_Some_inv (i v : Z) (s s1 : state) :
  load i s = Some (v, s1) ->
  0 <= i < Z.of_nat (length (packet s)) /\ packet s1 = packet s.
Proof.
  unfold load.
  destruct (Z.leb_spec 0 i) as [Hlo|Hlo];
    destruct (Z.ltb_spec i (Z.of_nat (length (packet s)))) as [Hhi|Hhi];
    cbn [andb]; try discriminate.
  intros H. assert (E : s1 = mkState (packet s) (out_data s) (trace s ++ [EvRead i]))
    by congruence.
  subst s1. split; [lia|reflexivity].
Qed.

Lemma checksum_loop_packet (n : nat) :
  forall (p i tmp v : Z) (s s1 : state),
    checksum_loop n p i tmp s = Some (v, s1) -> packet s1 = packet s.
Proof.
  induction n as [|n IH]; intros p i tmp v s s1 H.
  - cbn in H. unfold ret in H. congruence.
  - cbn [checksum_loop] in H.
    apply bind_Some_inv in H as (b & s0 & L & K).
    apply load_Some_inv in L as [_ L]. apply IH in K. congruence.
Qed.

Lemma calculate_checksum_packet (cid p len v : Z) (s s1 : state) :
  calculate_checksum cid p len s = Some (v, s1) -> packet s1 = packet s.
Proof.
  unfold calculate_checksum. rewrite bind_emit. intros H.
  apply bind_Some_inv in H as (tmp & s0 & L & K).
  apply checksum_loop_packet in L. unfold ret in K.
  assert (E : s1 = s0) by congruence. subst s1. exact L.
Qed.

(** X10. A packet of seven bytes with the right sync byte and a command id
    other than 0x81 is rejected with the CID error alone, whatever its
    checksum byte: elements 0 and 1 are read, the checksum routine is not
    entered and the structure is not written. *)
Theorem wrong_cid_rejected_before_checksum
        (raw : list byte) (d : BatteryStatusData) :
  length raw = 7%nat ->
  byte_val (nth 0 raw x00) = COMCHIP_SYNC_BYTE ->
  byte_val (nth 1 raw x00) <> COMCHIP_CID_GET_STATUS_RESP ->
  exists s' : state,
    process_comchip_status_packet (Z.of_nat (length raw)) (start raw d)
    = Some (false, s')
    /\ errors_of (trace s')
       = [ErrInvalidCID COMCHIP_CID_GET_STATUS_RESP (byte_val (nth 1 raw x00))]
    /\ checksum_calls (trace s') = 0%nat
    /\ reads_of (trace s') = [0; 1; 1]
    /\ writes_of (trace s') = []
    /\ packet s' = raw /\ out_data s' = d.
Proof.
  intros Hlen Hsync Hcid. rewrite Hlen.
  destruct (length_7_inv raw Hlen) as (b0 & b1 & b2 & b3 & b4 & b5 & b6 & ->).
  cbn [nth] in *. change (Z.of_nat 7) with 7.
  rewrite process_run_7.
  apply Z.eqb_eq in Hsync. apply Z.eqb_neq in Hcid.
  rewrite Hsync, Hcid. cbn [negb].
  eexists. split; [reflexivity|]. cbn. repeat split; reflexivity.
Qed.

Lemma wrong_cid_rejected_before_checksum_witness :
  let raw := [x55; x82; x00; x96; xfe; x00; xe7] in
  exists s' : state,
    process_comchip_status_packet (Z.of_nat (length raw)) (start raw uninit)
    = Some (false, s')
    /\ errors_of (trace s')
       = [ErrInvalidCID COMCHIP_CID_GET_STATUS_RESP (byte_val (nth 1 raw x00))]
    /\ checksum_calls (trace s') = 0%nat
    /\ reads_of (trace s') = [0; 1; 1]
    /\ writes_of (trace s') = []
    /\ packet s' = raw /\ out_data s' = uninit.
Proof.
  apply (wrong_cid_rejected_before_checksum
           [x55; x82; x00; x96; xfe; x00; xe7] uninit).
  - reflexivity.
  - reflexivity.
  - vm_compute. discriminate.
Defined.

(** X11. A packet of seven bytes with the right sync byte and command id
    whose last byte is not [254 - (128 + raw[2] + raw[3] + raw[4] + raw[5])
    mod 255] is rejected with the checksum error, which carries that value
    and the byte received; all seven elements were read, the checksum
    routine was entered once and the structure is not written. *)
Theorem wrong_checksum_rejected (raw : list byte) (d : BatteryStatusData) :
  length raw = 7%nat ->
  byte_val (nth 0 raw x00) = COMCHIP_SYNC_BYTE ->
  byte_val (nth 1 raw x00) = COMCHIP_CID_GET_STATUS_RESP ->
  let expected :=
    254 - (128 + byte_val (nth 2 raw x00) + byte_val (nth 3 raw x00)
           + byte_val (nth 4 raw x00) + byte_val (nth 5 raw x00)) mod 255 in
  byte_val (nth 6 raw x00) <> expected ->
  exists s' : state,
    process_comchip_status_packet (Z.of_nat (length raw)) (start raw d)
    = Some (false, s')
    /\ errors_of (trace s')
       = [ErrChecksumMismatch expected (byte_val (nth 6 raw x00))]
    /\ checksum_calls (trace s') = 1%nat
    /\ reads_of (trace s') = [0; 1; 1; 2; 3; 4; 5; 6]
    /\ writes_of (trace s') = []
    /\ packet s' = raw /\ out_data s' = d.
Proof.
  intros Hlen Hsync Hcid expected Hcs. subst expected. rewrite Hlen.
  destruct (length_7_inv raw Hlen) as (b0 & b1 & b2 & b3 & b4 & b5 & b6 & ->).
  cbn [nth] in *. change (Z.of_nat 7) with 7.
  rewrite process_run_7.
  rewrite Hcid, checksum_of_status_frame.
  apply Z.eqb_eq in Hsync. rewrite Hsync. cbn [negb].
  change (COMCHIP_CID_GET_STATUS_RESP =? COMCHIP_CID_GET_STATUS_RESP) with true.
  cbn [negb].
  destruct (Z.eqb_spec
              (254 - (128 + byte_val b2 + byte_val b3 + byte_val b4 + byte_val b5)
                     mod 255)
              (byte_val b6)) as [E|E]; [lia|]. cbn [negb].
  eexists. split; [reflexivity|]. cbn. repeat split; reflexivity.
Qed.

Lemma wrong_checksum_rejected_witness :
  let raw := bad_checksum_packet in
  let expected :=
    254 - (128 + byte_val (nth 2 raw x00) + byte_val (nth 3 raw x00)
           + byte_val (nth 4 raw x00) + byte_val (nth 5 raw x00)) mod 255 in
  exists s' : state,
    process_comchip_status_packet (Z.of_nat (length raw)) (start raw uninit)
    = Some (false, s')
    /\ errors_of (trace s')
       = [ErrChecksumMismatch expected (byte_val (nth 6 raw x00))]
    /\ checksum_calls (trace s') = 1%nat
    /\ reads_of (trace s') = [0; 1; 1; 2; 3; 4; 5; 6]
    /\ writes_of (trace s') = []
    /\ packet s' = raw /\ out_data s' = uninit.
Proof.
  apply (wrong_checksum_rejected bad_checksum_packet uninit).
  - reflexivity.
  - reflexivity.
  - reflexivity.
  - vm_compute. discriminate.
Defined.

(** X12. A packet of seven bytes is accepted exactly when its first byte is
    0x55, its second 0x81 and its last equals [254 - (128 + raw[2] + raw[3]
    + raw[4] + raw[5]) mod 255]. *)
Theorem accepted_iff_sync_cid_checksum
        (raw : list byte) (d : BatteryStatusData) :
  length raw = 7%nat ->
  (exists s' : state,
      process_comchip_status_packet (Z.of_nat (length raw)) (start raw d)
      = Some (true, s'))
  <-> (byte_val (nth 0 raw x00) = COMCHIP_SYNC_BYTE
       /\ byte_val (nth 1 raw x00) = COMCHIP_CID_GET_STATUS_RESP
       /\ byte_val (nth 6 raw x00)
          = 254 - (128 + byte_val (nth 2 raw x00) + byte_val (nth 3 raw x00)
                   + byte_val (nth 4 raw x00) + byte_val (nth 5 raw x00))
                  mod 255).
Proof.
  intros Hlen. rewrite Hlen.
  destruct (length_7_inv raw Hlen) as (b0 & b1 & b2 & b3 & b4 & b5 & b6 & ->).
  cbn [nth]. change (Z.of_nat 7) with 7. apply process_accepts_7.
Qed.

Lemma accepted_iff_sync_cid_checksum_witness :
  let raw := checked_packet in
  (exists s' : state,
      process_comchip_status_packet (Z.of_nat (length raw)) (start raw uninit)
      = Some (true, s'))
  <-> (byte_val (nth 0 raw x00) = COMCHIP_SYNC_BYTE
       /\ byte_val (nth 1 raw x00) = COMCHIP_CID_GET_STATUS_RESP
       /\ byte_val (nth 6 raw x00)
          = 254 - (128 + byte_val (nth 2 raw x00) + byte_val (nth 3 raw x00)
                   + byte_val (nth 4 raw x00) + byte_val (nth 5 raw x00))
                  mod 255).
Proof.
  apply (accepted_iff_sync_cid_checksum checked_packet uninit). reflexivity.
Defined.

(** X13. For every status byte, voltage bytes and reserved byte there is
    exactly one checksum byte that makes the frame 0x55, 0x81, status, high,
    low, reserved, checksum acceptable to the decoder. *)
Theorem exactly_one_valid_checksum_byte
        (status hi lo reserved : byte) (d : BatteryStatusData) :
  exists c : byte,
    (exists s' : state,
        process_comchip_status_packet 7
          (start [x55; x81; status; hi; lo; reserved; c] d) = Some (true, s'))
    /\ (forall c' : byte,
           (exists s' : state,
               process_comchip_status_packet 7
                 (start [x55; x81; status; hi; lo; reserved; c'] d)
               = Some (true, s')) ->
           c' = c).
Proof.
  pose (v := 254 - (128 + byte_val status + byte_val hi + byte_val lo
                    + byte_val reserved) mod 255).
  assert (Hv : 0 <= v < 256).
  { subst v.
    pose proof (Z.mod_pos_bound
                  (128 + byte_val status + byte_val hi + byte_val lo
                   + byte_val reserved) 255 ltac:(lia)).
    lia. }
  destruct (byte_of_value v Hv) as [c Hc].
  exists c. split.
  - apply process_accepts_7.
    split; [reflexivity|]. split; [reflexivity|exact Hc].
  - intros c' H. apply process_accepts_7 in H as (_ & _ & H).
    apply byte_val_inj. fold v in H. congruence.
Qed.

(** X14. A packet of seven bytes that ends in 0xFF is never accepted: the
    checksum of a frame with command id 0x81 is at most 254. *)
Theorem trailing_0xFF_never_accepted (raw : list byte) (d : BatteryStatusData) :
  length raw = 7%nat ->
  nth 6 raw x00 = xff ->
  exists s' : state,
    process_comchip_status_packet (Z.of_nat (length raw)) (start raw d)
    = Some (false, s')
    /\ out_data s' = d.
Proof.
  intros Hlen Hff. rewrite Hlen.
  destruct (length_7_inv raw Hlen) as (b0 & b1 & b2 & b3 & b4 & b5 & b6 & ->).
  cbn [nth] in Hff. subst b6. change (Z.of_nat 7) with 7.
  rewrite process_run_7.
  destruct (negb (byte_val b0 =? COMCHIP_SYNC_BYTE));
    [eexists; split; reflexivity|].
  destruct (Z.eqb_spec (byte_val b1) COMCHIP_CID_GET_STATUS_RESP) as [E1|E1];
    cbn [negb]; [|eexists; split; reflexivity].
  rewrite E1, checksum_of_status_frame.
  change (byte_val xff) with 255.
  destruct (Z.eqb_spec
              (254 - (128 + byte_val b2 + byte_val b3 + byte_val b4 + byte_val b5)
                     mod 255) 255) as [E|E]; cbn [negb].
  - pose proof (Z.mod_pos_bound
                  (128 + byte_val b2 + byte_val b3 + byte_val b4 + byte_val b5)
                  255 ltac:(lia)).
    lia.
  - eexists; split; reflexivity.
Qed.

Lemma trailing_0xFF_never_accepted_witness :
  exists s' : state,
    process_comchip_status_packet (Z.of_nat (length undervoltage_packet))
      (start undervoltage_packet uninit)
    = Some (false, s')
    /\ out_data s' = uninit.
Proof.
  apply (trailing_0xFF_never_accepted undervoltage_packet uninit).
  - reflexivity.
  - reflexivity.
Defined.

(** X15. The checksum does not protect the order of the voltage bytes: when
    a frame is accepted, the frame with its two voltage bytes exchanged is
    accepted too, with the same flags and the voltage read the other way
    round. *)
Theorem swapped_voltage_bytes_still_accepted
        (b0 b1 status hi lo reserved c : byte) (d : BatteryStatusData)
        (s1 : state) :
  process_comchip_status_packet 7 (start [b0; b1; status; hi; lo; reserved; c] d)
  = Some (true, s1) ->
  exists s2 : state,
    process_comchip_status_packet 7
      (start [b0; b1; status; lo; hi; reserved; c] d) = Some (true, s2)
    /\ battery_voltage_mV (out_data s1) = 256 * byte_val hi + byte_val lo
    /\ battery_voltage_mV (out_data s2) = 256 * byte_val lo + byte_val hi
    /\ has_battery_error (out_data s2) = has_battery_error (out_data s1)
    /\ is_under_voltage (out_data s2) = is_under_voltage (out_data s1)
    /\ is_battery_supported (out_data s2) = is_battery_supported (out_data s1).
Proof.
  intros H. rewrite process_run_7 in H. rewrite process_run_7.
  assert (E : checksum_of (byte_val b1) [status; lo; hi; reserved]
              = checksum_of (byte_val b1) [status; hi; lo; reserved]).
  { rewrite !checksum_of_closed by apply byte_val_range.
    cbn [sum_bytes fold_right]. do 2 f_equal. lia. }
  rewrite E.
  destruct (negb (byte_val b0 =? COMCHIP_SYNC_BYTE)); [discriminate H|].
  destruct (negb (byte_val b1 =? COMCHIP_CID_GET_STATUS_RESP)); [discriminate H|].
  destruct (negb (checksum_of (byte_val b1) [status; hi; lo; reserved]
                  =? byte_val c)); [discriminate H|].
  match type of H with
  | Some (_, ?st) = _ => assert (E1 : s1 = st) by congruence
  end.
  subst s1. clear H.
  eexists. split; [reflexivity|].
  cbn [out_data battery_voltage_mV has_battery_error is_under_voltage
       is_battery_supported].
  rewrite !voltage_value. repeat split; reflexivity.
Qed.

Lemma swapped_voltage_bytes_still_accepted_witness :
  exists s2 : state,
    process_comchip_status_packet 7
      (start [x55; x81; x00; xfe; x96; x00; xe8] uninit) = Some (true, s2)
    /\ 38654 = 256 * byte_val x96 + byte_val xfe
    /\ battery_voltage_mV (out_data s2) = 256 * byte_val xfe + byte_val x96
    /\ has_battery_error (out_data s2) = false
    /\ is_under_voltage (out_data s2) = false
    /\ is_battery_supported (out_data s2) = true.
Proof.
  apply (swapped_voltage_bytes_still_accepted x55 x81 x00 x96 xfe x00 xe8 uninit
           (mkState checked_packet (mkBatteryStatusData 38654 false false true)
              [EvRead 0; EvRead 1; EvRead 1; EvChecksum 0x81 4;
               EvRead 2; EvRead 3; EvRead 4; EvRead 5; EvRead 6;
               EvPrint MsgPacketVerified; EvRead 2; EvRead 3; EvRead 4;
               EvWrite F_battery_voltage_mV; EvWrite F_has_battery_error;
               EvWrite F_is_under_voltage; EvWrite F_is_battery_supported])).
  vm_compute. reflexivity.
Defined.

(** X16. The decoder returns [true] only when [packet_len] is 7 and the
    packet really holds at least seven bytes; called with 7 on a shorter
    packet it either rejects it or runs into a read outside it. *)
Theorem accepted_only_with_seven_bytes
        (raw : list byte) (d : BatteryStatusData) (packet_len : Z) (s' : state) :
  process_comchip_status_packet packet_len (start raw d) = Some (true, s') ->
  packet_len = COMCHIP_STATUS_FRAME_LEN /\ (7 <= length raw)%nat.
Proof.
  intros H. unfold process_comchip_status_packet in H.
  destruct (Z.eqb_spec packet_len COMCHIP_STATUS_FRAME_LEN) as [->|Hne];
    cbn [negb] in H; [|discriminate H].
  split; [reflexivity|].
  apply bind_Some_inv in H as (sync & s1 & L0 & H).
  apply load_Some_inv in L0 as [_ P1]. rewrite if_run in H.
  destruct (negb (sync =? COMCHIP_SYNC_BYTE)).
  { apply bind_Some_inv in H as (g & s2 & _ & H). discriminate H. }
  apply bind_Some_inv in H as (cid & s2 & L1 & H).
  apply load_Some_inv in L1 as [_ P2]. rewrite if_run in H.
  destruct (negb (cid =? COMCHIP_CID_GET_STATUS_RESP)).
  { apply bind_Some_inv in H as (g & s3 & _ & H). discriminate H. }
  apply bind_Some_inv in H as (cid_arg & s3 & L2 & H).
  apply load_Some_inv in L2 as [_ P3].
  apply bind_Some_inv in H as (cs & s4 & C & H).
  apply calculate_checksum_packet in C.
  apply bind_Some_inv in H as (rcs & s5 & L6 & _).
  apply load_Some_inv in L6 as [L6 _].
  rewrite C, P3, P2, P1 in L6. cbn [packet start] in L6.
  unfold COMCHIP_STATUS_FRAME_LEN in L6. lia.
Qed.

Lemma accepted_only_with_seven_bytes_witness :
  7 = COMCHIP_STATUS_FRAME_LEN /\ (7 <= length checked_packet)%nat.
Proof.
  apply (accepted_only_with_seven_bytes checked_packet uninit 7
           (mkState checked_packet (mkBatteryStatusData 38654 false false true)
              [EvRead 0; EvRead 1; EvRead 1; EvChecksum 0x81 4;
               EvRead 2; EvRead 3; EvRead 4; EvRead 5; EvRead 6;
               EvPrint MsgPacketVerified; EvRead 2; EvRead 3; EvRead 4;
               EvWrite F_battery_voltage_mV; EvWrite F_has_battery_error;
               EvWrite F_is_under_voltage; EvWrite F_is_battery_supported])).
  vm_compute. reflexivity.
Defined.

(** X17. Called with [packet_len = 7] on a packet that holds more than
    seven bytes, the decoder behaves as on its first seven bytes: same
    result, same structure, same reads and messages. *)
Theorem bytes_after_the_seventh_are_ignored
        (raw : list byte) (d : BatteryStatusData) :
  (7 <= length raw)%nat ->
  exists (r : bool) (od : BatteryStatusData) (t : list event),
    process_comchip_status_packet 7 (start raw d) = Some (r, mkState raw od t)
    /\ process_comchip_status_packet 7 (start (firstn 7 raw) d)
       = Some (r, mkState (firstn 7 raw) od t).
Proof.
  intros Hlen.
  destruct raw as [|b0 [|b1 [|b2 [|b3 [|b4 [|b5 [|b6 rest]]]]]]];
    simpl in Hlen; try lia.
  cbn [firstn].
  change (b0 :: b1 :: b2 :: b3 :: b4 :: b5 :: b6 :: rest)
    with ([b0; b1; b2; b3; b4; b5; b6] ++ rest).
  rewrite process_run_7_tail, process_run_7.
  destruct (negb (byte_val b0 =? COMCHIP_SYNC_BYTE));
    [|destruct (negb (byte_val b1 =? COMCHIP_CID_GET_STATUS_RESP));
      [|destruct (negb (checksum_of (byte_val b1) [b2; b3; b4; b5]
                        =? byte_val b6))]];
    (eexists; eexists; eexists; split; reflexivity).
Qed.

Lemma bytes_after_the_seventh_are_ignored_witness :
  exists (r : bool) (od : BatteryStatusData) (t : list event),
    process_comchip_status_packet 7 (start (checked_packet ++ [x12; x34]) uninit)
    = Some (r, mkState (checked_packet ++ [x12; x34]) od t)
    /\ process_comchip_status_packet 7
         (start (firstn 7 (checked_packet ++ [x12; x34])) uninit)
       = Some (r, mkState (firstn 7 (checked_packet ++ [x12; x34])) od t).
Proof.
  apply (bytes_after_the_seventh_are_ignored (checked_packet ++ [x12; x34]) uninit).
  simpl. lia.
Defined.

(** * The programs of [com-5cg.c] and [com3-cg.c] on six bytes *)

Lemma prints_of_app (t1 t2 : list event) :
  prints_of (t1 ++ t2) = prints_of t1 ++ prints_of t2.
Proof.
  induction t1 as [|e t1 IH]; [reflexivity|].
  destruct e; simpl; rewrite IH; reflexivity.
Qed.

Lemma reads_of_app (t1 t2 : list event) :
  reads_of (t1 ++ t2) = reads_of t1 ++ reads_of t2.
Proof.
  induction t1 as [|e t1 IH]; [reflexivity|].
  destruct e; simpl; rewrite IH; reflexivity.
Qed.

Lemma prints_of_map_EvPrint (l : list message) :
  prints_of (map EvPrint l) = l.
Proof. induction l as [|m l IH]; simpl; [|rewrite IH]; reflexivity. Qed.

Lemma reads_of_map_EvPrint (l : list message) :
  reads_of (map EvPrint l) = [].
Proof. induction l as [|m l IH]; simpl; [|rewrite IH]; reflexivity. Qed.

Lemma voltage_value_5cg (h l : byte) :
  to_uint16 (Z.lor (Z.shiftl (to_uint16 (byte_val h)) 8) (byte_val l))
  = 256 * byte_val h + byte_val l.
Proof.
  pose proof (byte_val_range h). pose proof (byte_val_range l).
  rewrite (to_uint16_small (byte_val h)) by lia.
  rewrite lor_shiftl_8 by assumption. apply to_uint16_small. lia.
Qed.

Lemma voltage_value_3cg (h l : byte) :
  to_uint16 (Z.lor (Z.shiftl (byte_val h) 8) (byte_val l))
  = 256 * byte_val h + byte_val l.
Proof.
  pose proof (byte_val_range h). pose proof (byte_val_range l).
  rewrite lor_shiftl_8 by assumption. apply to_uint16_small. lia.
Qed.

Lemma decode_battery_status_run (status : Z) (s : state) :
  decode_battery_status status s
  = Some (tt, mkState (packet s) (out_data s)
                (trace s ++ map EvPrint (status_lines status))).
Proof.
  unfold decode_battery_status, status_lines, when.
  unfold DISCHARGE_MASK, BATTERY_SUPPORTED, VOLTAGE_OK_MASK, BATTERY_ERROR_MASK.
  rewrite !land_bit_eqb by lia.
  destruct (Z.testbit status 0), (Z.testbit status 5),
    (Z.testbit status 6), (Z.testbit status 7);
    cbn [negb]; unfold printf, bind, emit, ret; cbn [packet out_data trace];
    rewrite <- ?app_assoc; reflexivity.
Qed.

Section SixBytes.

Variables b0 b1 b2 b3 b4 b5 : byte.
Variable d : BatteryStatusData.

Let raw6 : list byte := [b0; b1; b2; b3; b4; b5].

(** The run of [main] of [com-5cg.c], by cases on its checksum test. *)
Lemma main_5cg_run_6 :
  let hdr := [EvRead 1; EvChecksum (byte_val b1) 3;
              EvRead 2; EvRead 3; EvRead 4; EvRead 5] in
  let calculated := checksum_of (byte_val b1) [b2; b3; b4] in
  main_5cg (start raw6 d)
  = if negb (calculated =? byte_val b5) then
      Some (-1, mkState raw6 d
                  (hdr ++ [EvPrint (Msg5ChecksumMismatch calculated (byte_val b5))]))
    else
      Some (0, mkState raw6 d
                 (hdr ++ [EvPrint Msg5ChecksumValid; EvRead 2]
                    ++ map EvPrint (status_lines (byte_val b2))
                    ++ (if negb (Z.testbit (byte_val b2) 5)
                           && negb (Z.testbit (byte_val b2) 7)
                        then [EvRead 3; EvRead 4;
                              EvPrint (Msg5Voltage
                                         ((256 * byte_val b3 + byte_val b4) / 1000))]
                        else [EvPrint Msg5VoltageNotDisplayed]))).
Proof.
  intros hdr calculated. subst raw6 hdr calculated.
  unfold main_5cg, start.
  run_step.
  change (PACKET_LENGTH - 3) with (Z.of_nat (length [b2; b3; b4])).
  change 2 with (Z.of_nat (length [b0; b1])) at 1.
  assert (Hlen : (length [b2; b3; b4] <= 255)%nat) by (simpl; lia).
  lazymatch goal with
  | |- context [bind (calculate_checksum ?c _ _) ?k ?s] =>
      rewrite (bind_run _ k s _ _
                 (calculate_checksum_run c [b0; b1] [b2; b3; b4] [b5]
                    s eq_refl Hlen))
  end.
  change (reads (Z.of_nat (length [b0; b1])) (length [b2; b3; b4]))
    with [EvRead 2; EvRead 3; EvRead 4].
  change (Z.of_nat (length [b2; b3; b4])) with 3.
  cbn [packet out_data trace app].
  fold (checksum_of (byte_val b1) [b2; b3; b4]).
  unfold CHECKSUM_INDEX, STATUS_INDEX, VOLT_H_INDEX, VOLT_L_INDEX.
  run_step. rewrite if_run.
  destruct (negb (checksum_of (byte_val b1) [b2; b3; b4] =? byte_val b5)).
  { run_step. reflexivity. }
  run_step. run_step.
  lazymatch goal with
  | |- context [bind (decode_battery_status ?st) ?k ?s] =>
      rewrite (bind_run _ k s _ _ (decode_battery_status_run st s))
  end.
  cbn [packet out_data trace].
  unfold BATTERY_SUPPORTED, BATTERY_ERROR_MASK.
  rewrite !land_bit_eqb by lia. rewrite negb_involutive.
  destruct (negb (Z.testbit (byte_val b2) 5) && negb (Z.testbit (byte_val b2) 7)).
  - unfold bind at 1. run_step. run_step.
    rewrite voltage_value_5cg.
    unfold printf, emit, ret. cbn [packet out_data trace app].
    rewrite <- ?app_assoc. cbn [app]. reflexivity.
  - unfold bind, printf, emit, ret. cbn [packet out_data trace app].
    rewrite <- ?app_assoc. cbn [app]. reflexivity.
Qed.

(** The run of [main] of [com3-cg.c], by cases on its two tests. *)
Lemma main_3cg_run_6 :
  let hdr := [EvRead 0; EvRead 1; EvChecksum (byte_val b1) 3;
              EvRead 2; EvRead 3; EvRead 4; EvRead 5] in
  let calculated := checksum_of (byte_val b1) [b2; b3; b4] in
  main_3cg (start raw6 d)
  = if negb (byte_val b0 =? START_BYTE) then
      Some (0, mkState raw6 d [EvRead 0; EvPrint Msg3InvalidStartByte])
    else if negb (calculated =? byte_val b5) then
      Some (0, mkState raw6 d
                 (hdr ++ [EvRead 5;
                          EvPrint (Msg3ChecksumMismatch calculated (byte_val b5))]))
    else
      Some (0, mkState raw6 d
                 (hdr ++ EvRead 2
                    :: (if Z.testbit (byte_val b2) 0
                        then [EvPrint Msg3NoBatteryAlarm]
                        else [EvRead 3; EvRead 4;
                              EvPrint (Msg3Voltage
                                         ((256 * byte_val b3 + byte_val b4) / 1000))]))).
Proof.
  intros hdr calculated. subst raw6 hdr calculated.
  unfold main_3cg, start.
  unfold CMD_ID_INDEX, ALARM_BYTE_INDEX, CHECKSUM_INDEX,
    VOLTAGE_MSB_INDEX, VOLTAGE_LSB_INDEX.
  run_step. rewrite if_run.
  destruct (negb (byte_val b0 =? START_BYTE)).
  { run_step. reflexivity. }
  run_step.
  change 3 with (Z.of_nat (length [b2; b3; b4])) at 1.
  change 2 with (Z.of_nat (length [b0; b1])) at 1.
  assert (Hlen : (length [b2; b3; b4] <= 255)%nat) by (simpl; lia).
  lazymatch goal with
  | |- context [bind (ODM_com_checksum_calc ?c ?p ?n) ?k ?s] =>
      rewrite (bind_run (ODM_com_checksum_calc c p n) k s _ _
                 (eq_trans (ODM_com_checksum_calc_eq c p n s)
                    (calculate_checksum_run c [b0; b1] [b2; b3; b4] [b5]
                       s eq_refl Hlen)))
  end.
  change (reads (Z.of_nat (length [b0; b1])) (length [b2; b3; b4]))
    with [EvRead 2; EvRead 3; EvRead 4].
  change (Z.of_nat (length [b2; b3; b4])) with 3.
  cbn [packet out_data trace app].
  fold (checksum_of (byte_val b1) [b2; b3; b4]).
  run_step. rewrite if_run.
  destruct (negb (checksum_of (byte_val b1) [b2; b3; b4] =? byte_val b5)).
  { run_step. run_step. reflexivity. }
  run_step.
  unfold NO_BATTERY_ALARM_BIT. change 1 with (Z.shiftl 1 0) at 1.
  rewrite land_bit_eqb by lia.
  destruct (Z.testbit (byte_val b2) 0); cbn [negb].
  - unfold bind, printf, emit, ret. reflexivity.
  - unfold bind at 1. run_step. run_step.
    rewrite voltage_value_3cg.
    unfold printf, emit, ret. reflexivity.
Qed.

End SixBytes.

Lemma length_6_inv (raw : list byte) :
  length raw = 6%nat ->
  exists b0 b1 b2 b3 b4 b5, raw = [b0; b1; b2; b3; b4; b5].
Proof.
  intros H.
  destruct raw as [|b0 [|b1 [|b2 [|b3 [|b4 [|b5 [|b6 raw]]]]]]];
    try discriminate H.
  exists b0, b1, b2, b3, b4, b5. reflexivity.
Qed.

(** X18. [decode_battery_status] prints its heading and then three or four
    lines chosen by bits 0, 5, 6 and 7 of the status byte (bit 0 set: no
    discharge line); it reads no element of the packet and writes nothing;
    two status bytes that agree on these four bits give the same run. *)
Theorem decode_battery_status_by_bits (status : byte) (s : state) :
  decode_battery_status (byte_val status) s
  = Some (tt, mkState (packet s) (out_data s)
                (trace s ++ map EvPrint (status_lines (byte_val status))))
  /\ (4 <= length (status_lines (byte_val status)) <= 5)%nat
  /\ (forall status' : byte,
         Z.testbit (byte_val status') 0 = Z.testbit (byte_val status) 0 ->
         Z.testbit (byte_val status') 5 = Z.testbit (byte_val status) 5 ->
         Z.testbit (byte_val status') 6 = Z.testbit (byte_val status) 6 ->
         Z.testbit (byte_val status') 7 = Z.testbit (byte_val status) 7 ->
         decode_battery_status (byte_val status') s
         = decode_battery_status (byte_val status) s).
Proof.
  split; [apply decode_battery_status_run|]. split.
  - unfold status_lines. destruct (Z.testbit (byte_val status) 0); simpl; lia.
  - intros status' H0 H5 H6 H7. rewrite !decode_battery_status_run.
    unfold status_lines. rewrite H0, H5, H6, H7. reflexivity.
Qed.

(** X19. On any six bytes, [main] of [com-5cg.c] never reads outside the
    array and never reads element 0: it tests neither the sync byte nor the
    command id.  When the last byte is not the checksum of bytes 2 to 4
    seeded with byte 1 it prints the mismatch alone and returns -1;
    otherwise it returns 0. *)
Theorem main_5cg_checksum_gate (raw : list byte) (d : BatteryStatusData) :
  length raw = 6%nat ->
  let expected :=
    255 - reduce255 (byte_val (nth 1 raw x00) + byte_val (nth 2 raw x00)
                     + byte_val (nth 3 raw x00) + byte_val (nth 4 raw x00)) in
  exists (r : Z) (s' : state),
    main_5cg (start raw d) = Some (r, s')
    /\ packet s' = raw /\ out_data s' = d
    /\ Forall (fun i => 1 <= i <= 5) (reads_of (trace s'))
    /\ (byte_val (nth 5 raw x00) <> expected ->
        r = -1
        /\ prints_of (trace s')
           = [Msg5ChecksumMismatch expected (byte_val (nth 5 raw x00))])
    /\ (byte_val (nth 5 raw x00) = expected -> r = 0).
Proof.
  intros Hlen expected. subst expected.
  destruct (length_6_inv raw Hlen) as (b0 & b1 & b2 & b3 & b4 & b5 & ->).
  cbn [nth]. rewrite main_5cg_run_6.
  rewrite checksum_of_closed by apply byte_val_range.
  cbn [sum_bytes fold_right].
  replace (byte_val b1 + (byte_val b2 + (byte_val b3 + (byte_val b4 + 0))))
    with (byte_val b1 + byte_val b2 + byte_val b3 + byte_val b4) by lia.
  destruct (Z.eqb_spec
              (255 - reduce255 (byte_val b1 + byte_val b2 + byte_val b3 + byte_val b4))
              (byte_val b5)) as [E|E]; cbn [negb].
  - eexists. eexists. split; [reflexivity|]. cbn [packet out_data trace].
    split; [reflexivity|]. split; [reflexivity|]. split.
    + cbn [app reads_of]. rewrite reads_of_app, reads_of_map_EvPrint.
      cbn [app].
      destruct (negb (Z.testbit (byte_val b2) 5)
                && negb (Z.testbit (byte_val b2) 7));
        cbn [reads_of]; repeat constructor; lia.
    + split; [intros H; lia | reflexivity].
  - eexists. eexists. split; [reflexivity|]. cbn [packet out_data trace].
    split; [reflexivity|]. split; [reflexivity|]. split.
    + cbn. repeat constructor; lia.
    + split; [intros _; split; reflexivity | intros H; lia].
Qed.

Lemma main_5cg_checksum_gate_witness :
  let raw := packet_5cg in
  let expected :=
    255 - reduce255 (byte_val (nth 1 raw x00) + byte_val (nth 2 raw x00)
                     + byte_val (nth 3 raw x00) + byte_val (nth 4 raw x00)) in
  exists (r : Z) (s' : state),
    main_5cg (start raw uninit) = Some (r, s')
    /\ packet s' = raw /\ out_data s' = uninit
    /\ Forall (fun i => 1 <= i <= 5) (reads_of (trace s'))
    /\ (byte_val (nth 5 raw x00) <> expected ->
        r = -1
        /\ prints_of (trace s')
           = [Msg5ChecksumMismatch expected (byte_val (nth 5 raw x00))])
    /\ (byte_val (nth 5 raw x00) = expected -> r = 0).
Proof.
  apply (main_5cg_checksum_gate packet_5cg uninit). reflexivity.
Defined.

(** X20. When the checksum byte is right, [main] of [com-5cg.c] prints the
    confirmation, the status lines and then one last line: the voltage in
    whole volts, [(256 * raw[3] + raw[4]) / 1000], when bits 5 and 7 of the
    status byte are both clear, and the refusal otherwise. *)
Theorem main_5cg_report (raw : list byte) (d : BatteryStatusData) :
  length raw = 6%nat ->
  byte_val (nth 5 raw x00)
  = 255 - reduce255 (byte_val (nth 1 raw x00) + byte_val (nth 2 raw x00)
                     + byte_val (nth 3 raw x00) + byte_val (nth 4 raw x00)) ->
  let status := byte_val (nth 2 raw x00) in
  exists s' : state,
    main_5cg (start raw d) = Some (0, s')
    /\ prints_of (trace s')
       = Msg5ChecksumValid
         :: status_lines status
         ++ [if negb (Z.testbit status 5) && negb (Z.testbit status 7)
             then Msg5Voltage
                    ((256 * byte_val (nth 3 raw x00) + byte_val (nth 4 raw x00))
                     / 1000)
             else Msg5VoltageNotDisplayed].
Proof.
  intros Hlen Hcs status. subst status.
  destruct (length_6_inv raw Hlen) as (b0 & b1 & b2 & b3 & b4 & b5 & ->).
  cbn [nth] in *. rewrite main_5cg_run_6.
  rewrite checksum_of_closed by apply byte_val_range.
  cbn [sum_bytes fold_right].
  replace (byte_val b1 + (byte_val b2 + (byte_val b3 + (byte_val b4 + 0))))
    with (byte_val b1 + byte_val b2 + byte_val b3 + byte_val b4) by lia.
  rewrite <- Hcs, Z.eqb_refl. cbn [negb].
  eexists. split; [reflexivity|]. cbn [trace app].
  cbn [prints_of]. rewrite prints_of_app, prints_of_map_EvPrint.
  destruct (negb (Z.testbit (byte_val b2) 5) && negb (Z.testbit (byte_val b2) 7));
    reflexivity.
Qed.

Lemma main_5cg_report_witness :
  let raw := [x55; x81; x00; x96; xfe; xe8] in
  let status := byte_val (nth 2 raw x00) in
  exists s' : state,
    main_5cg (start raw uninit) = Some (0, s')
    /\ prints_of (trace s')
       = Msg5ChecksumValid
         :: status_lines status
         ++ [if negb (Z.testbit status 5) && negb (Z.testbit status 7)
             then Msg5Voltage
                    ((256 * byte_val (nth 3 raw x00) + byte_val (nth 4 raw x00))
                     / 1000)
             else Msg5VoltageNotDisplayed].
Proof.
  apply (main_5cg_report [x55; x81; x00; x96; xfe; xe8] uninit).
  - reflexivity.
  - vm_compute. reflexivity.
Defined.

(** X21. On any six bytes, [main] of [com3-cg.c] stays inside the array,
    prints exactly one line and returns 0, also when the start byte or the
    checksum is wrong: its exit status does not tell a rejected frame from
    an accepted one. *)
Theorem main_3cg_one_line_and_exit_0 (frame : list byte) (d : BatteryStatusData) :
  length frame = 6%nat ->
  exists (s' : state) (m : message),
    main_3cg (start frame d) = Some (0, s')
    /\ prints_of (trace s') = [m]
    /\ Forall (fun i => 0 <= i <= 5) (reads_of (trace s'))
    /\ packet s' = frame /\ out_data s' = d.
Proof.
  intros Hlen.
  destruct (length_6_inv frame Hlen) as (b0 & b1 & b2 & b3 & b4 & b5 & ->).
  rewrite main_3cg_run_6.
  destruct (negb (byte_val b0 =? START_BYTE));
    [|destruct (negb (checksum_of (byte_val b1) [b2; b3; b4] =? byte_val b5));
      [|destruct (Z.testbit (byte_val b2) 0)]];
    (eexists; eexists; split; [reflexivity|]; cbn; split; [reflexivity|];
     split; [repeat constructor; lia | split; reflexivity]).
Qed.

Lemma main_3cg_one_line_and_exit_0_witness :
  exists (s' : state) (m : message),
    main_3cg (start frame_3cg uninit) = Some (0, s')
    /\ prints_of (trace s') = [m]
    /\ Forall (fun i => 0 <= i <= 5) (reads_of (trace s'))
    /\ packet s' = frame_3cg /\ out_data s' = uninit.
Proof.
  apply (main_3cg_one_line_and_exit_0 frame_3cg uninit). reflexivity.
Defined.

(** X22. [main] of [com3-cg.c] prints a voltage exactly when the start byte
    is 0x55, the last byte is the checksum of bytes 2 to 4 seeded with byte
    1 (whatever that command id is) and bit 0 of the alarm byte is clear;
    the value printed is [(256 * frame[3] + frame[4]) / 1000]. *)
Theorem main_3cg_prints_voltage_iff (frame : list byte) (d : BatteryStatusData) :
  length frame = 6%nat ->
  exists s' : state,
    main_3cg (start frame d) = Some (0, s')
    /\ ((exists v : Z, prints_of (trace s') = [Msg3Voltage v])
        <-> (byte_val (nth 0 frame x00) = START_BYTE
             /\ byte_val (nth 5 frame x00)
                = 255 - reduce255 (byte_val (nth 1 frame x00)
                                   + byte_val (nth 2 frame x00)
                                   + byte_val (nth 3 frame x00)
                                   + byte_val (nth 4 frame x00))
             /\ Z.testbit (byte_val (nth 2 frame x00)) 0 = false))
    /\ (forall v : Z,
           prints_of (trace s') = [Msg3Voltage v] ->
           v = (256 * byte_val (nth 3 frame x00) + byte_val (nth 4 frame x00))
               / 1000).
Proof.
  intros Hlen.
  destruct (length_6_inv frame Hlen) as (b0 & b1 & b2 & b3 & b4 & b5 & ->).
  cbn [nth]. rewrite main_3cg_run_6.
  rewrite checksum_of_closed by apply byte_val_range.
  cbn [sum_bytes fold_right].
  replace (byte_val b1 + (byte_val b2 + (byte_val b3 + (byte_val b4 + 0))))
    with (byte_val b1 + byte_val b2 + byte_val b3 + byte_val b4) by lia.
  destruct (Z.eqb_spec (byte_val b0) START_BYTE) as [E0|E0]; cbn [negb].
  2:{ eexists. split; [reflexivity|]. cbn [trace prints_of app]. split.
      - split; [intros (v & H); discriminate H | intros (H & _); contradiction].
      - intros v H. discriminate H. }
  destruct (Z.eqb_spec
              (255 - reduce255 (byte_val b1 + byte_val b2 + byte_val b3 + byte_val b4))
              (byte_val b5)) as [E1|E1]; cbn [negb].
  2:{ eexists. split; [reflexivity|]. cbn [trace prints_of app]. split.
      - split; [intros (v & H); discriminate H | intros (_ & H & _); lia].
      - intros v H. discriminate H. }
  destruct (Z.testbit (byte_val b2) 0) eqn:E2.
  - eexists. split; [reflexivity|]. cbn [trace prints_of app]. split.
    + split; [intros (v & H); discriminate H | intros (_ & _ & H); discriminate H].
    + intros v H. discriminate H.
  - eexists. split; [reflexivity|]. cbn [trace prints_of app]. split.
    + split; [intros _; repeat split; auto | intros _; eexists; reflexivity].
    + intros v H. congruence.
Qed.

Lemma main_3cg_prints_voltage_iff_witness :
  let frame := [x55; x81; x00; x6d; x60; xb0] in
  exists s' : state,
    main_3cg (start frame uninit) = Some (0, s')
    /\ ((exists v : Z, prints_of (trace s') = [Msg3Voltage v])
        <-> (byte_val (nth 0 frame x00) = START_BYTE
             /\ byte_val (nth 5 frame x00)
                = 255 - reduce255 (byte_val (nth 1 frame x00)
                                   + byte_val (nth 2 frame x00)
                                   + byte_val (nth 3 frame x00)
                                   + byte_val (nth 4 frame x00))
             /\ Z.testbit (byte_val (nth 2 frame x00)) 0 = false))
    /\ (forall v : Z,
           prints_of (trace s') = [Msg3Voltage v] ->
           v = (256 * byte_val (nth 3 frame x00) + byte_val (nth 4 frame x00))
               / 1000).
Proof.
  apply (main_3cg_prints_voltage_iff [x55; x81; x00; x6d; x60; xb0] uninit).
  reflexivity.
Defined.

(** X23. The six-byte and the seven-byte frames agree on the checksum: the
    bytes 0x55, 0x81, status, high, low, checksum pass the checksum test of
    [main] of [com-5cg.c] exactly when the same frame with a reserved byte
    0x00 put before the checksum is accepted by
    [process_comchip_status_packet]. *)
Theorem six_byte_frame_extends_to_seven
        (status hi lo c : byte) (d d' : BatteryStatusData) :
  (exists s' : state,
      main_5cg (start [x55; x81; status; hi; lo; c] d) = Some (0, s'))
  <-> (exists s' : state,
          process_comchip_status_packet 7
            (start [x55; x81; status; hi; lo; x00; c] d') = Some (true, s')).
Proof.
  rewrite process_accepts_7, main_5cg_run_6.
  change (byte_val x81) with COMCHIP_CID_GET_STATUS_RESP.
  assert (E : checksum_of COMCHIP_CID_GET_STATUS_RESP [status; hi; lo]
              = 254 - (128 + byte_val status + byte_val hi + byte_val lo
                       + byte_val x00) mod 255).
  { rewrite <- checksum_of_status_frame.
    rewrite !checksum_of_closed by (unfold COMCHIP_CID_GET_STATUS_RESP; lia).
    cbn [sum_bytes fold_right]. change (byte_val x00) with 0.
    do 2 f_equal; lia. }
  rewrite E.
  destruct (Z.eqb_spec
              (254 - (128 + byte_val status + byte_val hi + byte_val lo
                      + byte_val x00) mod 255)
              (byte_val c)) as [Ec|Ec]; cbn [negb].
  - split; [intros _; repeat split; auto | intros _; eexists; reflexivity].
  - split; [intros (s' & H); discriminate H | intros (_ & _ & H); lia].
Qed.
